(** * go-basic-api-app: the product catalog and its two storage backends

    A shallow embedding of [dummydb/dummydb.go] (the in-memory backend) and of
    [dynamodb/dynamodb.go] (the DynamoDB backend), followed by the properties
    of the storage contract that the specification states about them.

    Conventions of the embedding.
    - A Go [int] is a [Z]; the code only compares and prints ids, so no
      wrap-around arithmetic is involved.
    - A Go [float64] is a [spec_float] (the IEEE 754 model of the Standard
      Library, here at precision 53 and maximal exponent 1024); [>] is the
      IEEE comparison, false as soon as one side is NaN.
    - A Go [error] is [option string]: [None] is [nil], [Some msg] an error
      whose [Error()] text is [msg].
    - The package variable [Items] is threaded explicitly: a method with
      receiver [Items] takes the contents of the slice before the call and
      returns its contents after the call first, then what the Go method
      returns.
    - Output on standard output ([fmt.Println]) is not modelled. *)

From Stdlib Require Import ZArith String Ascii DecimalString DecimalZ DecimalPos SpecFloat.
From Stdlib Require Import Sorted Permutation Lia.
From stdpp Require Import base list sorting strings.

Local Open Scope Z_scope.
Local Open Scope string_scope.
Local Open Scope list_scope.

(** ** The pieces of the Go runtime and standard library the code relies on *)

Module Go.

(** [error]: [nil] or a value with a message. *)
Definition error : Type := option string.

(** [%v] of an [int]: its decimal digits, with a minus sign when negative. *)
Definition FormatInt (n : Z) : string := NilZero.string_of_int (Z.to_int n).

(** The line feed that ["\n"] denotes in a Go string literal. *)
Definition LF : string := String (ascii_of_nat 10) EmptyString.

(** [fmt.Sprintf], for the one verb the code uses. Each [%v] is replaced
    by the next operand, given here already converted to text (an [int] by
    [FormatInt], a string as it is, an [error] by its message); every
    other character of the format is copied. An operand that is missing
    prints as [fmt] prints it. *)
Fixpoint Sprintf (format : string) (operands : list string) : string :=
  match format with
  | EmptyString => EmptyString
  | String "%" (String "v" rest) =>
      match operands with
      | a :: operands' => a +:+ Sprintf rest operands'
      | [] => "%!v(MISSING)" +:+ Sprintf rest []
      end
  | String c rest => String c (Sprintf rest operands)
  end.

(** [fmt.Errorf]: the error whose message is the formatted text. *)
Definition Errorf (format : string) (operands : list string) : error :=
  Some (Sprintf format operands).

(** [float64] and the comparisons of the language on it. *)
Definition float64 : Type := spec_float.

Definition is_float64 (x : float64) : bool := valid_binary 53 1024 x.

Definition float64_gt (x y : float64) : bool := SFltb y x.
Definition float64_ge (x y : float64) : bool := SFleb y x.

Definition is_NaN (x : float64) : bool :=
  match x with
  | S754_nan => true
  | _ => false
  end.

(** The literals of the source, rounded to the nearest [float64]. *)
Definition f0_98 : float64 := S754_finite false 8827055269646172 (-53).
Definition f2_25 : float64 := S754_finite false 5066549580791808 (-51).
Definition f4_99 : float64 := S754_finite false 5618240535144694 (-50).
Definition f2_5 : float64 := S754_finite false 5629499534213120 (-51).

(** *** [sort.Slice]

    [sort.Slice(x, less)] reorders [x] in place by exchanging elements. Its
    algorithm is not part of its contract and the order of equal elements
    is not specified, so the backends take the function as a parameter and
    the properties below assume what the package documents: the result
    holds the elements of the argument, and it is in order whenever [less]
    is a transitive ordering of these elements in the sense of
    [sort.Interface] (the documentation warns that [<] on floats is not
    one when NaN is involved). *)

Definition sorter : Type := forall A : Type, (A -> A -> bool) -> list A -> list A.

Definition transitive_ordering {A} (less : A -> A -> bool) (l : list A) : Prop :=
  (forall x, x ∈ l -> less x x = false) /\
  (forall x y z, x ∈ l -> y ∈ l -> z ∈ l ->
     less x y = true -> less y z = true -> less x z = true) /\
  (forall x y z, x ∈ l -> y ∈ l -> z ∈ l ->
     less x y = false -> less y z = false -> less x z = false).

(** No element is [less] than one that stands before it. *)
Definition in_order {A} (less : A -> A -> bool) (l : list A) : Prop :=
  StronglySorted (fun x y => less y x = false) l.

Definition sort_Slice_contract (sort_Slice : sorter) : Prop :=
  forall (A : Type) (less : A -> A -> bool) (l : list A),
    l ≡ₚ sort_Slice A less l /\
    (transitive_ordering less l -> in_order less (sort_Slice A less l)).

(** The insertion sort that package [sort] runs on short slices
    ([insertionSortLessFunc]): element [i] moves left while it is [less]
    than its left neighbour. [sorted_rev] is the part already sorted,
    last element first. *)
Fixpoint insert_left {A} (less : A -> A -> bool) (x : A) (sorted_rev : list A) : list A :=
  match sorted_rev with
  | [] => [x]
  | y :: l => if less x y then y :: insert_left less x l else x :: y :: l
  end.

Definition insertionSort : sorter :=
  fun A less l => rev (fold_left (fun acc x => insert_left less x acc) l []).

End Go.

Import Go.

(** ** The in-memory backend, [dummydb/dummydb.go] *)

Module dummydb.

Record Product : Type := mkProduct {
  Id : Z;
  Name : string;
  Price : float64
}.

(** [Product.String]. [%v] of a [float64] is the shortest decimal that
    reads back as the same number; the property stated about the rendering
    is about the text around the fields, so that conversion is a
    parameter. *)
Section Rendering.
Variable FormatFloat : float64 -> string.

Definition Product_String (p : Product) : string :=
  Sprintf "<(Id: %v) {%v} @ %v>" [FormatInt (Id p); Name p; FormatFloat (Price p)].
End Rendering.

(** [type Products []Product]: the contents of the slice, in order. *)
Abbreviation Products := (list Product).

(** The error every lookup by id ends with when the loop finds nothing. *)
Definition does_not_exist (id : Z) : error :=
  Errorf "Product <%v> does not exist" [FormatInt id].

(** The [range] loops of the package all look for the first element with a
    given id: its index and value, if any. *)
Definition first_with_Id (id : Z) (pArr : Products) : option (nat * Product) :=
  list_find (fun op => Id op = id) pArr.

(** [GetAll]. The receiver is a copy of the slice header of [Items], so
    [sort.Slice] permutes the array that [Items] itself points to: the
    contents of [Items] after the call are the sorted ones, and the slice
    returned is that same slice. *)
Section Sorting.
Variable sort_Slice : sorter.

Definition price_greater (a b : Product) : bool := float64_gt (Price a) (Price b).

Definition GetAll (pArr : Products) : Products * (Products * error) :=
  let sorted := sort_Slice Product price_greater pArr in
  (sorted, (sorted, None)).
End Sorting.

Definition AddProduct (pArr : Products) (newProduct : Product) : Products * error :=
  (pArr ++ [newProduct], None).

(** [GetProduct] reads through [product] the id to look for and writes the
    element found back through it; [product] points to a variable of the
    caller, as in [main.go], not into the slice. *)
Definition GetProduct (pArr : Products) (product : Product) : Products * (Product * error) :=
  match first_with_Id (Id product) pArr with
  | Some (_, p) => (pArr, (p, None))
  | None => (pArr, (product, does_not_exist (Id product)))
  end.

Definition UpdateProduct (pArr : Products) (newProduct : Product) : Products * error :=
  match first_with_Id (Id newProduct) pArr with
  | Some (i, _) => (<[i := newProduct]> pArr, None)
  | None => (pArr, does_not_exist (Id newProduct))
  end.

Definition DeleteProduct (pArr : Products) (p : Product) : Products * error :=
  match first_with_Id (Id p) pArr with
  | Some (i, _) => (take i pArr ++ drop (S i) pArr, None)
  | None => (pArr, does_not_exist (Id p))
  end.

Definition Initialize (_ : Products) : Products * error :=
  ([ mkProduct 1 "Apple" f0_98;
     mkProduct 2 "Orange" f0_98;
     mkProduct 3 "Bananas" f2_25;
     mkProduct 4 "Frozen Pizza" f4_99 ], None).

Definition Cleanup (pArr : Products) : Products * error := (pArr, None).

End dummydb.

(** ** The DynamoDB backend, [dynamodb/dynamodb.go]

    [GetAll], [AddProduct], [GetProduct] and the bootstrap. [UpdateProduct]
    and [DeleteProduct] of this backend, one request to the store each, are
    not among the operations the properties below are about. *)

Module dynamodb.

Record Product : Type := mkProduct {
  Id : Z;
  Name : string;
  Price : float64
}.

Definition TableName : string := "Products".
Definition IdAttribute : string := "id".

Section Rendering.
Variable FormatFloat : float64 -> string.

Definition Product_String (p : Product) : string :=
  Sprintf "<(Id: %v) {%v} @ %v>" [FormatInt (Id p); Name p; FormatFloat (Price p)].
End Rendering.

Definition does_not_exist (id : Z) : error :=
  Errorf "Product <%v> does not exist" [FormatInt id].

(** *** Calls on the store

    A call takes the state of the world behind the client (the tables and
    their items, the network) to the state after it and a result. *)

Definition call (World A : Type) : Type := World -> World * A.

Definition ret {World A} (a : A) : call World A := fun w => (w, a).

Definition bind {World A B} (c : call World A) (k : A -> call World B) : call World B :=
  fun w => let '(w', a) := c w in k a w'.

Notation "'let*' x ':=' c 'in' k" := (bind c (fun x => k))
  (at level 10, x pattern, c at level 100, k at level 200).

(** The part of the AWS SDK the package calls. [Item] is what the SDK
    stores, a [map[string]*dynamodb.AttributeValue]. A request that fails
    still hands back an output value next to its error, whose list of
    items is then whatever the SDK left in it. [Query] is the one query
    the package makes: the items of a table whose key is a given id. *)
Record SDK (Item World : Type) : Type := mkSDK {
  NewSession : string -> string -> call World error;
  ListTables : call World (list string * error);
  CreateTable : string -> call World error;
  Scan : string -> call World (list Item * error);
  Query : string -> Z -> call World (list Item * error);
  PutItem : string -> Item -> call World error;
  MarshalMap : Product -> Item * error;
  UnmarshalMap : Item -> Product * error;
  UnmarshalListOfMaps : list Item -> list Product * error
}.

Arguments NewSession {Item World}.
Arguments ListTables {Item World}.
Arguments CreateTable {Item World}.
Arguments Scan {Item World}.
Arguments Query {Item World}.
Arguments PutItem {Item World}.
Arguments MarshalMap {Item World}.
Arguments UnmarshalMap {Item World}.
Arguments UnmarshalListOfMaps {Item World}.

Definition Region : string := "us-west-2".
Definition Endpoint : string := "http://localhost:8080".

(** The products [enterTestData] holds in its local slice. *)
Definition testData : list Product :=
  [ mkProduct 1 "Apple" f0_98;
    mkProduct 2 "Orange" f0_98;
    mkProduct 3 "Bananas" f2_25;
    mkProduct 4 "Frozen Pizza" f4_99 ].

Section Backend.
Context {Item World : Type}.
Variable sdk : SDK Item World.
Variable sort_Slice : sorter.

Definition price_greater (a b : Product) : bool := float64_gt (Price a) (Price b).

Definition GetAll : call World (list Product * error) :=
  let* (items, err) := Scan sdk TableName in
  match err with
  | Some e => ret ([], Errorf ("Query GetAll failed:" +:+ LF +:+ "%v") [e])
  | None =>
      let '(temp, err) := UnmarshalListOfMaps sdk items in
      match err with
      | Some e => ret ([], Errorf ("Unmarshalling GetAll failed:" +:+ LF +:+ "%v") [e])
      | None => ret (sort_Slice Product price_greater temp, None)
      end
  end.

Definition AddProduct (newProduct : Product) : call World error :=
  let '(data, err) := MarshalMap sdk newProduct in
  match err with
  | Some e => ret (Errorf "AddProduct -> Error marshalling product: %v" [e])
  | None =>
      let* err := PutItem sdk TableName data in
      match err with
      | Some e => ret (Errorf "AddProduct -> New product could not be added: %v" [e])
      | None => ret None
      end
  end.

(** [GetProduct]. The error of [Items.Query] is assigned to [err] and
    never read: the loop over [result.Items] comes next, and [err] is
    assigned again inside it. *)
Definition GetProduct (product : Product) : call World (Product * error) :=
  let* (items, _) := Query sdk TableName (Id product) in
  match items with
  | i :: _ =>
      let '(p, err) := UnmarshalMap sdk i in
      match err with
      | Some e => ret (product, Errorf ("Unmarshalling GetProduct failed:" +:+ LF +:+ "%v") [e])
      | None => ret (p, None)
      end
  | [] => ret (product, does_not_exist (Id product))
  end.

Definition tableExists (name : string) : call World (bool * error) :=
  let* (names, err) := ListTables sdk in
  match err with
  | Some e => ret (false, Errorf "%v" [e])
  | None => ret (existsb (String.eqb name) names, None)
  end.

Definition listTables : call World error :=
  let* (_, err) := ListTables sdk in
  match err with
  | Some e => ret (Errorf "%v" [e])
  | None => ret None
  end.

(** The loop of [enterTestData] over its slice. *)
Fixpoint enterTestData_range (products : list Product) : call World error :=
  match products with
  | [] => ret None
  | p :: rest =>
      let* err := AddProduct p in
      match err with
      | Some e => ret (Errorf "Error entering test data: %v" [e])
      | None => enterTestData_range rest
      end
  end.

Definition enterTestData : call World error := enterTestData_range testData.

(** [createTable]. The value of [enterTestData()] is dropped. *)
Definition createTable : call World error :=
  let* err := CreateTable sdk TableName in
  match err with
  | Some e => ret (Errorf "%v" [e])
  | None => let* _ := enterTestData in ret None
  end.

(** [Initialize]. The values of [Items.listTables()] and of
    [createTable()] are dropped. *)
Definition Initialize : call World error :=
  let* err := NewSession sdk Region Endpoint in
  match err with
  | Some e => ret (Errorf "INITIALIZATION ERROR: %v" [e])
  | None =>
      let* _ := listTables in
      let* (exists_, err) := tableExists TableName in
      match err with
      | Some e => ret (Errorf "INITIALIZATION ERROR: %v" [e])
      | None =>
          if negb exists_
          then let* _ := createTable in ret None
          else ret None
      end
  end.

Definition Cleanup : call World error := ret None.
End Backend.

End dynamodb.

(** ** A store to run the DynamoDB backend against

    An in-memory stand-in for the service, with the failures of each call
    switched on and off: it gives the properties of the backend a store on
    which every call can be evaluated. An item is the product itself. *)

Module fakestore.
Import dynamodb.

Inductive request : Type :=
  | ReqNewSession | ReqListTables | ReqCreateTable | ReqScan | ReqQuery | ReqPutItem.

Record World : Type := mkWorld {
  tables : list string;
  rows : list Product;
  failing : request -> bool
}.

Definition unavailable : string := "RequestError: send request failed".
Definition no_such_table : string := "ResourceNotFoundException".
Definition table_in_use : string := "ResourceInUseException".

Definition has_table (name : string) (w : World) : bool :=
  existsb (String.eqb name) (tables w).

Definition put (item : Product) (l : list Product) : list Product :=
  filter (fun p => Id p <> Id item) l ++ [item].

Definition sdk : SDK Product World := {|
  NewSession := fun _ _ w =>
    if failing w ReqNewSession then (w, Some unavailable) else (w, None);
  ListTables := fun w =>
    if failing w ReqListTables then (w, ([], Some unavailable))
    else (w, (tables w, None));
  CreateTable := fun name w =>
    if failing w ReqCreateTable then (w, Some unavailable)
    else if has_table name w then (w, Some table_in_use)
    else (mkWorld (tables w ++ [name]) (rows w) (failing w), None);
  Scan := fun name w =>
    if failing w ReqScan then (w, ([], Some unavailable))
    else if has_table name w then (w, (rows w, None))
    else (w, ([], Some no_such_table));
  Query := fun name id w =>
    if failing w ReqQuery then (w, ([], Some unavailable))
    else if has_table name w then (w, (filter (fun p => Id p = id) (rows w), None))
    else (w, ([], Some no_such_table));
  PutItem := fun name item w =>
    if failing w ReqPutItem then (w, Some unavailable)
    else if has_table name w
    then (mkWorld (tables w) (put item (rows w)) (failing w), None)
    else (w, Some no_such_table);
  MarshalMap := fun p => (p, None);
  UnmarshalMap := fun i => (i, None);
  UnmarshalListOfMaps := fun l => (l, None)
|}.

Definition healthy : request -> bool := fun _ => false.

Definition only (r : request) : request -> bool :=
  fun r' =>
    match r, r' with
    | ReqNewSession, ReqNewSession | ReqListTables, ReqListTables
    | ReqCreateTable, ReqCreateTable | ReqScan, ReqScan
    | ReqQuery, ReqQuery | ReqPutItem, ReqPutItem => true
    | _, _ => false
    end.

(** A service with no table yet, and one whose table holds the test data. *)
Definition fresh (f : request -> bool) : World := mkWorld [] [] f.
Definition seeded (f : request -> bool) : World := mkWorld [TableName] testData f.
End fakestore.

(** ** Vocabulary of the properties, and the catalogs they are tried on *)

(** A sequence of prices in which every price is at least every later one,
    for the [>=] of the language. *)
Definition non_increasing (prices : list float64) : Prop :=
  StronglySorted (fun x y => float64_ge x y = true) prices.

(** The same, decided by comparing each price with the next one. *)
Fixpoint non_increasingb (prices : list float64) : bool :=
  match prices with
  | x :: (y :: _) as rest => float64_ge x y && non_increasingb rest
  | _ => true
  end.

(** The prices of a catalog are numbers. *)
Definition priced {A} (price : A -> float64) (l : list A) : Prop :=
  Forall (fun p => is_NaN (price p) = false) l.

(** A product of either backend as the triple of its fields. *)
Definition dummydb_triple (p : dummydb.Product) : Z * string * float64 :=
  (dummydb.Id p, dummydb.Name p, dummydb.Price p).

Definition dynamodb_triple (p : dynamodb.Product) : Z * string * float64 :=
  (dynamodb.Id p, dynamodb.Name p, dynamodb.Price p).

(** No product of the catalog has the id. *)
Definition without_Id (id : Z) (pArr : dummydb.Products) : Prop :=
  Forall (fun q => dummydb.Id q <> id) pArr.

Module samples.
Import dummydb.

Definition Apple : Product := mkProduct 1 "Apple" f0_98.
Definition Orange : Product := mkProduct 2 "Orange" f0_98.
Definition Bananas : Product := mkProduct 3 "Bananas" f2_25.
Definition Pizza : Product := mkProduct 4 "Pizza" f4_99.

(** The catalog of the sort example. *)
Definition catalog : Products := [Apple; Orange; Bananas; Pizza].

(** A second product with the id of [Apple], and the value [main.go]
    passes to [GetProduct] to look an id up. *)
Definition GreenApple : Product := mkProduct 1 "Green Apple" f2_5.
Definition lookup (id : Z) : Product := mkProduct id EmptyString (S754_zero false).

(** The update of the specification's example. *)
Definition Bananas' : Product := mkProduct 3 "Bananas!" f2_5.

Definition Kiwi : Product := mkProduct 5 "Kiwi" f2_25.

(** A catalog with two products of id 1. *)
Definition duplicated : Products := [Orange; Apple; Bananas; GreenApple].
End samples.

(** ** The HTTP handlers, [main.go]

    [main.go] imports the in-memory backend as [db] and serves five routes
    with it. A handler is embedded as a function of what it reads from the
    request (the [id] variable of the route, the body) and of the catalog,
    to the catalog after the call and the response it writes: its status
    and its body. The headers of the response are not modelled. *)

Module strconv.

(** The value of a decimal digit. *)
Definition digit (c : ascii) : option Z :=
  let n := Z.of_N (N_of_ascii c) in
  if (48 <=? n)%Z && (n <=? 57)%Z then Some (n - 48) else None.

Definition maxUint64 : Z := 2 ^ 64 - 1.
Definition maxInt : Z := 2 ^ 63 - 1.
Definition minInt : Z := - 2 ^ 63.

(** What the scan of the digits ends with, as in [ParseUint]: the number
    they denote, or the first thing that stops the scan, a character that
    is no digit or a number that no longer fits 64 bits. *)
Inductive scanned : Type :=
  | Number (n : Z)
  | BadSyntax
  | TooLarge.

(** The scan, from left to right, after the digits read so far. *)
Fixpoint digits (s : string) (n : Z) : scanned :=
  match s with
  | EmptyString => Number n
  | String c rest =>
      match digit c with
      | None => BadSyntax
      | Some d =>
          if (maxUint64 / 10 + 1 <=? n)%Z then TooLarge
          else if (maxUint64 <? n * 10 + d)%Z then TooLarge
          else digits rest (n * 10 + d)
      end
  end.

Definition ErrSyntax : string := "invalid syntax".
Definition ErrRange : string := "value out of range".

(** [strconv.Atoi] on a 64-bit platform: an optional sign, then digits and
    nothing else; a number that does not fit an [int] is an error, returned
    with the nearest [int]. Of a character that is no digit and a number
    too large, the one the scan meets first decides the error. The message
    of the error quotes the input with [strconv.Quote], a parameter here. *)
Section Atoi.
Variable Quote : string -> string.

Definition NumError (s why : string) : error :=
  Some ("strconv.Atoi: parsing " +:+ Quote s +:+ ": " +:+ why).

Definition Atoi (s : string) : Z * error :=
  match s with
  | EmptyString => (0, NumError s ErrSyntax)
  | String c rest =>
      let neg := Ascii.eqb c "-" in
      let body := if neg || Ascii.eqb c "+" then rest else s in
      match body with
      | EmptyString => (0, NumError s ErrSyntax)
      | _ =>
          match digits body 0 with
          | BadSyntax => (0, NumError s ErrSyntax)
          | TooLarge => (if neg then minInt else maxInt, NumError s ErrRange)
          | Number un =>
              if neg
              then if (un <=? 2 ^ 63)%Z then (- un, None) else (minInt, NumError s ErrRange)
              else if (un <=? maxInt)%Z then (un, None) else (maxInt, NumError s ErrRange)
          end
      end
  end.
End Atoi.

End strconv.

Module http.

Record Response : Type := mkResponse {
  StatusCode : Z;
  Body : string
}.

Definition StatusOK : Z := 200.
Definition StatusCreated : Z := 201.
Definition StatusBadRequest : Z := 400.
Definition StatusNotFound : Z := 404.
Definition StatusInternalServerError : Z := 500.

(** [http.Error]: the status, and the message on a line of its own. *)
Definition Error (msg : string) (code : Z) : Response := mkResponse code (msg +:+ LF).

End http.

Module db := dummydb.

Module main.
Import http.

(** The double quote of a JSON text. *)
Definition DQ : string := String (ascii_of_nat 34) EmptyString.

(** What [json.NewEncoder(w).Encode] writes for the map of one key that
    [DeleteProduct] answers with: the object and a line feed. *)
Definition result_success : string :=
  "{" +:+ DQ +:+ "result" +:+ DQ +:+ ":" +:+ DQ +:+ "success" +:+ DQ +:+ "}" +:+ LF.

(** The [id] variables the routes let through: [[0-9]+]. *)
Fixpoint all_digits (s : string) : bool :=
  match s with
  | EmptyString => true
  | String c rest =>
      match strconv.digit c with
      | Some _ => all_digits rest
      | None => false
      end
  end.

Definition route_id (s : string) : bool :=
  match s with
  | EmptyString => false
  | _ => all_digits s
  end.

(** The JSON codec is a parameter of the handlers: [Decode body] is the
    product and the error [json.NewDecoder(r.Body).Decode(&p)] leaves for a
    [p] declared just before; [Encode_Product] and [Encode_Products] are
    what [Encode] writes to the response. *)
Section Handlers.
Variable sort_Slice : sorter.
Variable Quote : string -> string.
Variable Decode : string -> db.Product * error.
Variable Encode_Product : db.Product -> string.
Variable Encode_Products : db.Products -> string.

Definition GetAllProducts (Items : db.Products) : db.Products * Response :=
  let '(Items, (p, err)) := db.GetAll sort_Slice Items in
  match err with
  | Some e => (Items, Error e StatusInternalServerError)
  | None => (Items, mkResponse StatusOK (Encode_Products p))
  end.

Definition CreateProduct (Items : db.Products) (body : string) : db.Products * Response :=
  let '(p, err) := Decode body in
  match err with
  | Some e => (Items, Error e StatusBadRequest)
  | None =>
      let '(Items, err) := db.AddProduct Items p in
      match err with
      | Some e => (Items, Error e StatusInternalServerError)
      | None => (Items, mkResponse StatusCreated (Encode_Product p))
      end
  end.

Definition GetProduct (Items : db.Products) (id_var : string) : db.Products * Response :=
  let '(id, err) := strconv.Atoi Quote id_var in
  match err with
  | Some e => (Items, Error e StatusBadRequest)
  | None =>
      let p := db.mkProduct id EmptyString (S754_zero false) in
      let '(Items, (p, err)) := db.GetProduct Items p in
      match err with
      | Some e => (Items, Error e StatusNotFound)
      | None => (Items, mkResponse StatusOK (Encode_Product p))
      end
  end.

Definition UpdateProduct (Items : db.Products) (id_var body : string)
  : db.Products * Response :=
  let '(id, err) := strconv.Atoi Quote id_var in
  match err with
  | Some e => (Items, Error e StatusBadRequest)
  | None =>
      let '(p, err) := Decode body in
      match err with
      | Some e => (Items, Error e StatusBadRequest)
      | None =>
          let p := db.mkProduct id (db.Name p) (db.Price p) in
          let '(Items, err) := db.UpdateProduct Items p in
          match err with
          | Some e => (Items, Error e StatusInternalServerError)
          | None => (Items, mkResponse StatusOK (Encode_Product p))
          end
      end
  end.

Definition DeleteProduct (Items : db.Products) (id_var : string) : db.Products * Response :=
  let '(id, err) := strconv.Atoi Quote id_var in
  match err with
  | Some e => (Items, Error e StatusBadRequest)
  | None =>
      let p := db.mkProduct id EmptyString (S754_zero false) in
      let '(Items, err) := db.DeleteProduct Items p in
      match err with
      | Some e => (Items, Error e StatusInternalServerError)
      | None => (Items, mkResponse StatusOK result_success)
      end
  end.
End Handlers.

End main.

(** ** Sequences of calls on the in-memory backend *)

(** A call of one of the five methods on [Items]. *)
Inductive operation : Type :=
  | CallGetAll
  | CallAddProduct (newProduct : dummydb.Product)
  | CallGetProduct (product : dummydb.Product)
  | CallUpdateProduct (newProduct : dummydb.Product)
  | CallDeleteProduct (p : dummydb.Product).

(** The catalog after a call, and after a sequence of calls. *)
Definition after (sort_Slice : sorter) (Items : dummydb.Products) (op : operation)
  : dummydb.Products :=
  match op with
  | CallGetAll => fst (dummydb.GetAll sort_Slice Items)
  | CallAddProduct p => fst (dummydb.AddProduct Items p)
  | CallGetProduct p => fst (dummydb.GetProduct Items p)
  | CallUpdateProduct p => fst (dummydb.UpdateProduct Items p)
  | CallDeleteProduct p => fst (dummydb.DeleteProduct Items p)
  end.

Definition after_all (sort_Slice : sorter) (Items : dummydb.Products)
    (ops : list operation) : dummydb.Products :=
  fold_left (after sort_Slice) ops Items.

(** The product a call brings into the catalog, if any, has a price that is
    a number. *)
Definition priced_call (op : operation) : Prop :=
  match op with
  | CallAddProduct p | CallUpdateProduct p => is_NaN (dummydb.Price p) = false
  | _ => True
  end.

(** The number of products of the catalog with the id. *)
Definition count_Id (id : Z) (pArr : dummydb.Products) : nat :=
  length (filter (fun q => dummydb.Id q = id) pArr).

(** ** A store that refuses one product

    The store of [fakestore], except that [PutItem] rejects the items of
    one id: a store on which an insert in the middle of a sequence fails. *)

Module strictstore.
Import dynamodb.

Definition rejected : string := "ValidationException".

Definition sdk (bad : Z) : SDK Product fakestore.World := {|
  NewSession := NewSession fakestore.sdk;
  ListTables := ListTables fakestore.sdk;
  CreateTable := CreateTable fakestore.sdk;
  Scan := Scan fakestore.sdk;
  Query := Query fakestore.sdk;
  PutItem := fun name item w =>
    if Z.eqb (Id item) bad then (w, Some rejected)
    else PutItem fakestore.sdk name item w;
  MarshalMap := MarshalMap fakestore.sdk;
  UnmarshalMap := UnmarshalMap fakestore.sdk;
  UnmarshalListOfMaps := UnmarshalListOfMaps fakestore.sdk
|}.
End strictstore.

(** ** A codec to run the handlers with

    Stand-ins for the JSON codec and for [strconv.Quote], on which the
    handlers can be evaluated: a body is the name of one of two sample
    products, a product is written as its name. *)

Module stubs.

Definition Quote (s : string) : string := main.DQ +:+ s +:+ main.DQ.

Definition bad_body : string := "unexpected end of JSON input".

Definition Decode (body : string) : dummydb.Product * error :=
  if String.eqb body "Kiwi" then (samples.Kiwi, None)
  else if String.eqb body "Bananas!" then (samples.Bananas', None)
  else (dummydb.mkProduct 0 EmptyString (S754_zero false), Some bad_body).

Definition Encode_Product (p : dummydb.Product) : string := dummydb.Name p +:+ LF.

Definition Encode_Products (l : dummydb.Products) : string :=
  fold_right (fun p s => dummydb.Name p +:+ "," +:+ s) LF l.

End stubs.

(** * Properties *)

(** ** The order of [float64] *)

Section Float64_order.

Ltac float_cases x := destruct x as [[]|[]| |[] ? ?].

Ltac compare_cases :=
  repeat match goal with
  | |- context [Pos.compare_cont Eq ?a ?b] =>
      change (Pos.compare_cont Eq a b) with (Pos.compare a b)
  | H : context [Pos.compare_cont Eq ?a ?b] |- _ =>
      change (Pos.compare_cont Eq a b) with (Pos.compare a b) in H
  end;
  repeat match goal with
  | H : context [Z.compare ?a ?b] |- _ => destruct (Z.compare_spec a b); simpl in H
  | |- context [Z.compare ?a ?b] => destruct (Z.compare_spec a b); simpl
  | H : context [Pos.compare ?a ?b] |- _ => destruct (Pos.compare_spec a b); simpl in H
  | |- context [Pos.compare ?a ?b] => destruct (Pos.compare_spec a b); simpl
  end;
  subst; try discriminate; try reflexivity; try lia.

Lemma float64_gt_irrefl (x : float64) : float64_gt x x = false.
Proof.
  unfold float64_gt, SFltb. float_cases x; simpl; try reflexivity;
    rewrite Z.compare_refl, Pos.compare_cont_refl; reflexivity.
Qed.

Lemma float64_gt_trans (x y z : float64) :
  float64_gt x y = true -> float64_gt y z = true -> float64_gt x z = true.
Proof.
  unfold float64_gt, SFltb. float_cases x; float_cases y; float_cases z; simpl;
    try discriminate; try reflexivity; intros H1 H2; compare_cases.
Qed.

(** Numbers that are not greater one than the next are not greater from end
    to end. This is what NaN breaks: 1 is not greater than NaN, NaN is not
    greater than 0. *)
Lemma float64_gt_negative_trans (x y z : float64) :
  is_NaN x = false -> is_NaN y = false -> is_NaN z = false ->
  float64_gt x y = false -> float64_gt y z = false -> float64_gt x z = false.
Proof.
  unfold float64_gt, SFltb. float_cases x; float_cases y; float_cases z; simpl;
    try discriminate; try reflexivity; intros _ _ _ H1 H2; compare_cases.
Qed.

Lemma float64_not_gt_ge (x y : float64) :
  is_NaN x = false -> is_NaN y = false ->
  float64_gt y x = false -> float64_ge x y = true.
Proof.
  unfold float64_gt, float64_ge, SFltb, SFleb. float_cases x; float_cases y; simpl;
    try discriminate; try reflexivity; intros _ _ H1; compare_cases.
Qed.

(** The literals of the source are values of the format. *)
Example literals_are_float64 :
  forallb is_float64 [f0_98; f2_25; f4_99; f2_5] = true.
Proof. reflexivity. Qed.

Lemma NaN_not_ge_l (x : float64) : float64_ge S754_nan x = false.
Proof. destruct x; reflexivity. Qed.

Lemma NaN_not_ge_r (x : float64) : float64_ge x S754_nan = false.
Proof. destruct x; reflexivity. Qed.

End Float64_order.

(** ** [sort.Slice]: the insertion sort meets the contract *)

Section Insertion_sort.
Context {A : Type} (less : A -> A -> bool).

Lemma insert_left_Permutation (x : A) (l : list A) : insert_left less x l ≡ₚ x :: l.
Proof.
  induction l as [|y l IH]; simpl; [reflexivity|].
  destruct (less x y); [|reflexivity].
  rewrite IH. apply perm_swap.
Qed.

Lemma fold_insert_left_Permutation (l acc : list A) :
  fold_left (fun acc x => insert_left less x acc) l acc ≡ₚ l ++ acc.
Proof.
  revert acc. induction l as [|x l IH]; intros acc; simpl; [reflexivity|].
  rewrite IH, insert_left_Permutation. symmetry. apply Permutation_middle.
Qed.

(** The ordering is only asked of the elements that are sorted: [P] holds
    of them. *)
Variable P : A -> Prop.
Hypothesis less_irrefl : forall x, P x -> less x x = false.
Hypothesis less_trans : forall x y z, P x -> P y -> P z ->
  less x y = true -> less y z = true -> less x z = true.
Hypothesis less_negative_trans : forall x y z, P x -> P y -> P z ->
  less x y = false -> less y z = false -> less x z = false.

Lemma less_asym (x y : A) : P x -> P y -> less x y = true -> less y x = false.
Proof.
  intros Hx Hy Hxy. destruct (less y x) eqn:Hyx; [|reflexivity].
  rewrite <- (less_irrefl x Hx). symmetry. eauto.
Qed.

(** The sorted part, last element first: no element is [less] than a later
    one of this list. *)
Let backwards (l : list A) : Prop := StronglySorted (fun a b => less a b = false) l.

Lemma insert_left_Forall (x : A) (l : list A) :
  P x -> Forall P l -> Forall P (insert_left less x l).
Proof.
  intros Hx Hl. eapply Permutation_Forall; [symmetry; apply insert_left_Permutation|].
  constructor; assumption.
Qed.

Lemma insert_left_backwards (x : A) (l : list A) :
  P x -> Forall P l -> backwards l -> backwards (insert_left less x l).
Proof.
  intros Hx Hl Hs. induction Hs as [|y l Hs IH Hy]; simpl.
  - repeat constructor.
  - apply Forall_cons_1 in Hl as [HPy HPl].
    destruct (less x y) eqn:Hxy.
    + constructor; [apply IH; assumption|].
      eapply Permutation_Forall; [symmetry; apply insert_left_Permutation|].
      constructor; [apply less_asym; assumption | assumption].
    + constructor; [constructor; assumption|].
      constructor; [assumption|].
      rewrite Forall_forall in Hy, HPl |- *. intros z Hz.
      apply (less_negative_trans x y z); auto.
Qed.

Lemma fold_insert_left_backwards (l acc : list A) :
  Forall P l -> Forall P acc -> backwards acc ->
  backwards (fold_left (fun acc x => insert_left less x acc) l acc).
Proof.
  revert acc. induction l as [|x l IH]; intros acc Hl Hacc Hs; simpl; [assumption|].
  apply Forall_cons_1 in Hl as [Hx Hl].
  apply IH; auto using insert_left_Forall, insert_left_backwards.
Qed.

Lemma backwards_rev (l : list A) : backwards l -> in_order less (rev l).
Proof.
  unfold in_order. induction 1 as [|x l Hs IH Hx]; simpl; [constructor|].
  apply StronglySorted_app_2; [|assumption|repeat constructor].
  intros a b Ha Hb. apply list_elem_of_singleton in Hb as ->.
  rewrite Forall_forall in Hx. apply Hx.
  apply list_elem_of_In, in_rev, list_elem_of_In. exact Ha.
Qed.

End Insertion_sort.

Lemma insertionSort_Permutation {A} (less : A -> A -> bool) (l : list A) :
  l ≡ₚ insertionSort A less l.
Proof.
  unfold insertionSort. rewrite <- Permutation_rev, fold_insert_left_Permutation.
  rewrite app_nil_r. reflexivity.
Qed.

Lemma insertionSort_contract : sort_Slice_contract insertionSort.
Proof.
  intros A less l. split; [apply insertionSort_Permutation|].
  intros (Hirr & Htr & Hneg). unfold insertionSort.
  apply (backwards_rev less).
  apply (fold_insert_left_backwards less (fun x => x ∈ l)); auto.
  - apply Forall_forall. auto.
  - constructor.
Qed.

(** ** Sorting by price, for both backends *)

Section Sorted_by_price.
Context {A : Type} (price : A -> float64).

Let greater (a b : A) : bool := float64_gt (price a) (price b).

(** On prices that are numbers, [>] is an ordering [sort.Slice] accepts. *)
Lemma price_ordering (l : list A) : priced price l -> transitive_ordering greater l.
Proof.
  unfold priced, greater. rewrite Forall_forall. intros Hl. split; [|split].
  - intros x _. apply float64_gt_irrefl.
  - intros x y z _ _ _. apply float64_gt_trans.
  - intros x y z Hx Hy Hz. apply float64_gt_negative_trans; auto.
Qed.

Lemma in_order_non_increasing (r : list A) :
  priced price r -> in_order greater r -> non_increasing (map price r).
Proof.
  unfold in_order, non_increasing, priced. intros Hn Hs.
  induction Hs as [|x r Hs IH Hx]; simpl; [constructor|].
  apply Forall_cons_1 in Hn as [Hnx Hnr].
  constructor; [auto|].
  rewrite Forall_forall in Hx, Hnr. apply Forall_forall. intros py Hpy.
  apply list_elem_of_In, in_map_iff in Hpy as (y & <- & Hy%list_elem_of_In).
  apply float64_not_gt_ge; auto. apply Hx. exact Hy.
Qed.

Lemma sort_by_price (sort_Slice : sorter) (l : list A) :
  sort_Slice_contract sort_Slice -> priced price l ->
  l ≡ₚ sort_Slice A greater l /\
  non_increasing (map price (sort_Slice A greater l)).
Proof.
  intros Hsort Hl. destruct (Hsort A greater l) as [Hperm Hord].
  split; [exact Hperm|].
  apply in_order_non_increasing.
  - unfold priced. rewrite <- Hperm. exact Hl.
  - apply Hord, price_ordering, Hl.
Qed.
End Sorted_by_price.

Lemma non_increasing_decided (prices : list float64) :
  non_increasing prices -> non_increasingb prices = true.
Proof.
  induction 1 as [|x l Hs IH Hx]; [reflexivity|].
  destruct l as [|y l]; [reflexivity|].
  apply Forall_cons_1 in Hx as [Hxy _].
  change (float64_ge x y && non_increasingb (y :: l) = true).
  rewrite Hxy, IH. reflexivity.
Qed.

(** The sort example: whatever [sort.Slice] does with the two products of
    equal price, the sample catalog comes out in one of two orders. *)
Lemma sort_sample_catalog (sort_Slice : sorter) :
  sort_Slice_contract sort_Slice ->
  let r := sort_Slice dummydb.Product dummydb.price_greater samples.catalog in
  r = [samples.Pizza; samples.Bananas; samples.Apple; samples.Orange] \/
  r = [samples.Pizza; samples.Bananas; samples.Orange; samples.Apple].
Proof.
  intros Hsort r.
  assert (samples.catalog ≡ₚ r /\ non_increasing (map dummydb.Price r)) as [Hperm Hdesc].
  { apply (sort_by_price dummydb.Price sort_Slice samples.catalog Hsort).
    repeat constructor. }
  clearbody r.
  apply non_increasing_decided in Hdesc.
  apply permutations_Permutation in Hperm. vm_compute in Hperm.
  repeat (apply elem_of_cons in Hperm as [-> | Hperm];
          [vm_compute in Hdesc;
           first [ discriminate Hdesc | left; reflexivity | right; reflexivity ] |]).
  inversion Hperm.
Qed.

(** Why the prices have to be numbers: NaN is neither [>=] nor [<=] any
    price, so a catalog of two products with a NaN among the prices has no
    arrangement in which the prices never increase. *)
Lemma NaN_price_out_of_order (p q : dummydb.Product) (r : list dummydb.Product) :
  dummydb.Price p = S754_nan -> [p; q] ≡ₚ r -> ~ non_increasing (map dummydb.Price r).
Proof.
  intros Hp Hperm Hs.
  apply Permutation_length_2_inv in Hperm as [-> | ->]; simpl in Hs;
    apply StronglySorted_inv in Hs as [_ Hall];
    apply Forall_cons_1 in Hall as [Hge _]; rewrite Hp in Hge.
  - rewrite NaN_not_ge_l in Hge. discriminate.
  - rewrite NaN_not_ge_r in Hge. discriminate.
Qed.

(** ** The in-memory backend: what the loops over [Items] find *)

Section Lookup_by_id.
Import dummydb.

Lemma first_with_Id_absent (id : Z) (pArr : Products) :
  (forall q, q ∈ pArr -> Id q <> id) -> first_with_Id id pArr = None.
Proof.
  intros Habs. apply list_find_None, Forall_forall. exact Habs.
Qed.

Lemma first_with_Id_first (id : Z) (pre : Products) (q : Product) (post : Products) :
  (forall r, r ∈ pre -> Id r <> id) -> Id q = id ->
  first_with_Id id (pre ++ q :: post) = Some (length pre, q).
Proof.
  intros Hpre Hq. apply list_find_Some. split; [|split].
  - apply list_lookup_middle. reflexivity.
  - exact Hq.
  - intros j y Hj Hlt. rewrite lookup_app_l in Hj by exact Hlt.
    apply Hpre. eapply list_elem_of_lookup_2. exact Hj.
Qed.

(** A catalog that holds the id splits at its first product with it. *)
Lemma first_with_Id_present (id : Z) (pArr : Products) (q : Product) :
  q ∈ pArr -> Id q = id ->
  exists pre q' post,
    pArr = pre ++ q' :: post /\ Id q' = id /\ (forall r, r ∈ pre -> Id r <> id).
Proof.
  intros Hin Hq.
  destruct (list_find_elem_of (fun op => Id op = id) pArr q Hin Hq) as [[i q'] Hfind].
  apply list_find_Some in Hfind as (Hi & Hq' & Hbefore).
  destruct (list_elem_of_split_length _ _ _ Hi) as (pre & post & -> & ->).
  exists pre, q', post. split; [reflexivity|]. split; [exact Hq'|].
  intros r [j Hj]%list_elem_of_lookup_1.
  apply (Hbefore j).
  - rewrite lookup_app_l; [exact Hj|]. eapply lookup_lt_Some. exact Hj.
  - eapply lookup_lt_Some. exact Hj.
Qed.

Lemma insert_at_split (pre : Products) (q p : Product) (post : Products) :
  <[length pre := p]> (pre ++ q :: post) = pre ++ p :: post.
Proof.
  rewrite insert_app_r_alt by reflexivity. rewrite Nat.sub_diag. reflexivity.
Qed.

Lemma remove_at_split (pre : Products) (q : Product) (post : Products) :
  take (length pre) (pre ++ q :: post) ++ drop (S (length pre)) (pre ++ q :: post)
  = pre ++ post.
Proof.
  rewrite take_app_length. f_equal.
  rewrite cons_middle, app_assoc.
  replace (S (length pre)) with (length (pre ++ [q])).
  - apply drop_app_length.
  - rewrite length_app. simpl. lia.
Qed.

Variables (pre : Products) (q : Product) (post : Products).
Hypothesis first : forall r, r ∈ pre -> Id r <> Id q.

Lemma GetProduct_first (product : Product) :
  Id product = Id q ->
  GetProduct (pre ++ q :: post) product = (pre ++ q :: post, (q, None)).
Proof.
  intros Hid. unfold GetProduct. rewrite Hid, first_with_Id_first; auto.
Qed.

Lemma UpdateProduct_first (newProduct : Product) :
  Id newProduct = Id q ->
  UpdateProduct (pre ++ q :: post) newProduct = (pre ++ newProduct :: post, None).
Proof.
  intros Hid. unfold UpdateProduct. rewrite Hid, first_with_Id_first; auto.
  rewrite insert_at_split. reflexivity.
Qed.

Lemma DeleteProduct_first (p : Product) :
  Id p = Id q ->
  DeleteProduct (pre ++ q :: post) p = (pre ++ post, None).
Proof.
  intros Hid. unfold DeleteProduct. rewrite Hid, first_with_Id_first; auto.
  rewrite remove_at_split. reflexivity.
Qed.
End Lookup_by_id.

(** ** The text of the errors *)

Lemma FormatInt_inj (a b : Z) : FormatInt a = FormatInt b -> a = b.
Proof.
  unfold FormatInt. intros Heq.
  assert (Hnonnil : forall n, Z.to_int n <> Decimal.Pos Decimal.Nil /\
                              Z.to_int n <> Decimal.Neg Decimal.Nil).
  { intros [|p|p]; simpl; split; try discriminate;
      intros [=E]; exact (DecimalPos.Unsigned.to_uint_nonnil p E). }
  apply DecimalZ.to_int_inj.
  assert (Some (Z.to_int a) = Some (Z.to_int b)) as [=->]; [|reflexivity].
  rewrite <- (NilZero.isi (Z.to_int a)), <- (NilZero.isi (Z.to_int b)), Heq;
    try apply Hnonnil. reflexivity.
Qed.

Lemma length_append (s t : string) :
  String.length (s +:+ t) = (String.length s + String.length t)%nat.
Proof. induction s as [|c s IH]; simpl; [reflexivity|]. rewrite IH. reflexivity. Qed.

Lemma append_empty_r (s : string) : s +:+ EmptyString = s.
Proof. induction s as [|c s IH]; [reflexivity | exact (f_equal (String c) IH)]. Qed.

Lemma append_inj_r (s1 s2 t : string) : s1 +:+ t = s2 +:+ t -> s1 = s2.
Proof.
  revert s2. induction s1 as [|c s1 IH]; intros [|d s2] Heq; simpl in Heq.
  - reflexivity.
  - apply (f_equal String.length) in Heq. simpl in Heq.
    rewrite !length_append in Heq. simpl in Heq. lia.
  - apply (f_equal String.length) in Heq. simpl in Heq.
    rewrite !length_append in Heq. simpl in Heq. lia.
  - injection Heq as -> Heq. f_equal. apply IH. exact Heq.
Qed.

Lemma does_not_exist_text (id : Z) :
  dummydb.does_not_exist id = Some ("Product <" +:+ FormatInt id +:+ "> does not exist").
Proof. reflexivity. Qed.

(** The error names the id: two ids give the same error only when equal. *)
Lemma does_not_exist_inj (a b : Z) :
  dummydb.does_not_exist a = dummydb.does_not_exist b -> a = b.
Proof.
  rewrite !does_not_exist_text. intros [=Heq].
  apply FormatInt_inj, (append_inj_r _ _ "> does not exist"). exact Heq.
Qed.

(** ** The storage contract on the in-memory backend *)

Section Ephemeral_backend.
Import dummydb samples.

Lemma without_Id_elem_of (id : Z) (pArr : Products) :
  without_Id id pArr -> forall q, q ∈ pArr -> Id q <> id.
Proof. apply Forall_forall. Qed.

Lemma elem_of_without_Id (id : Z) (pArr : Products) :
  (forall q, q ∈ pArr -> Id q <> id) -> without_Id id pArr.
Proof. apply Forall_forall. Qed.

Lemma GetProduct_absent (pArr : Products) (product : Product) :
  without_Id (Id product) pArr ->
  GetProduct pArr product = (pArr, (product, does_not_exist (Id product))).
Proof.
  intros Habs. unfold GetProduct.
  rewrite first_with_Id_absent by exact (without_Id_elem_of _ _ Habs). reflexivity.
Qed.

Lemma UpdateProduct_absent (pArr : Products) (newProduct : Product) :
  without_Id (Id newProduct) pArr ->
  UpdateProduct pArr newProduct = (pArr, does_not_exist (Id newProduct)).
Proof.
  intros Habs. unfold UpdateProduct.
  rewrite first_with_Id_absent by exact (without_Id_elem_of _ _ Habs). reflexivity.
Qed.

Lemma DeleteProduct_absent (pArr : Products) (p : Product) :
  without_Id (Id p) pArr ->
  DeleteProduct pArr p = (pArr, does_not_exist (Id p)).
Proof.
  intros Habs. unfold DeleteProduct.
  rewrite first_with_Id_absent by exact (without_Id_elem_of _ _ Habs). reflexivity.
Qed.

(** A catalog either holds no product with an id or splits at the first. *)
Lemma by_first_with_Id (id : Z) (pArr : Products) :
  without_Id id pArr \/
  exists pre q post,
    pArr = pre ++ q :: post /\ Id q = id /\ without_Id id pre.
Proof.
  destruct (first_with_Id id pArr) as [[i q]|] eqn:Hfind.
  - right. apply list_find_Some in Hfind as (Hi & Hq & _).
    destruct (first_with_Id_present id pArr q) as (pre & q' & post & Heq & Hq' & Hpre);
      [eapply list_elem_of_lookup_2; exact Hi | exact Hq |].
    exists pre, q', post. auto using elem_of_without_Id.
  - left. apply list_find_None in Hfind. exact Hfind.
Qed.

(** C1. For every catalog whose prices are numbers, as the data model has
    them, [GetAll] returns the products of the catalog with prices that
    never increase, on the in-memory backend and, when the scan and the
    decoding succeed, on the DynamoDB backend; on the catalog
    (1, Apple, 0.98), (2, Orange, 0.98), (3, Bananas, 2.25), (4, Pizza, 4.99)
    it returns the 4.99 product, then the 2.25 one, then the two 0.98
    products in one order or the other. *)
Theorem GetAll_non_increasing (sort_Slice : sorter) :
  sort_Slice_contract sort_Slice ->
  (forall pArr : Products,
     priced Price pArr ->
     exists r, GetAll sort_Slice pArr = (r, (r, None)) /\
               pArr ≡ₚ r /\ non_increasing (map Price r)) /\
  (forall (Item World : Type) (sdk : dynamodb.SDK Item World) w w' items temp,
     dynamodb.Scan sdk dynamodb.TableName w = (w', (items, None)) ->
     dynamodb.UnmarshalListOfMaps sdk items = (temp, None) ->
     priced dynamodb.Price temp ->
     exists r, dynamodb.GetAll sdk sort_Slice w = (w', (r, None)) /\
               temp ≡ₚ r /\ non_increasing (map dynamodb.Price r)) /\
  (exists r, GetAll sort_Slice catalog = (r, (r, None)) /\
             (r = [Pizza; Bananas; Apple; Orange] \/
              r = [Pizza; Bananas; Orange; Apple])).
Proof.
  intros Hsort. split; [|split].
  - intros pArr Hp. eexists. split; [reflexivity|].
    apply (sort_by_price Price sort_Slice pArr Hsort Hp).
  - intros Item World sdk w w' items temp Hscan Hdec Hp.
    unfold dynamodb.GetAll, dynamodb.bind. rewrite Hscan, Hdec.
    eexists. split; [reflexivity|].
    apply (sort_by_price dynamodb.Price sort_Slice temp Hsort Hp).
  - eexists. split; [reflexivity|]. apply sort_sample_catalog, Hsort.
Qed.

Lemma GetAll_non_increasing_witness :
  sort_Slice_contract insertionSort /\
  non_increasing (map Price (fst (GetAll insertionSort catalog))) /\
  (exists r,
     dynamodb.GetAll fakestore.sdk insertionSort (fakestore.seeded fakestore.healthy)
     = (fakestore.seeded fakestore.healthy, (r, None)) /\
     non_increasing (map dynamodb.Price r)).
Proof.
  destruct (GetAll_non_increasing insertionSort insertionSort_contract)
    as (Hmem & Hdyn & _).
  split; [exact insertionSort_contract|]. split.
  - destruct (Hmem catalog) as (r & Heq & _ & Hr); [repeat constructor|].
    rewrite Heq. exact Hr.
  - destruct (Hdyn _ _ fakestore.sdk (fakestore.seeded fakestore.healthy)
                _ _ _ eq_refl eq_refl) as (r & Heq & _ & Hr); [repeat constructor|].
    exists r. split; assumption.
Defined.
End Ephemeral_backend.

Section Ephemeral_contract.
Import dummydb samples.

(** C2, the claim as stated fails: [AddProduct] appends without looking,
    and [GetProduct] stops at the first product with the id, so a product
    added under an id the catalog already holds is not the one found. *)
Lemma AddProduct_GetProduct_counterexample :
  snd (GetProduct (fst (AddProduct catalog GreenApple)) (lookup (Id GreenApple)))
  <> (GreenApple, None).
Proof. vm_compute. discriminate. Qed.

(** C2, amended. For every product [p] and every catalog, [AddProduct p]
    and then [GetProduct] with the id of [p] succeed and return the first
    product of the catalog with that id: the product found has the id, no
    product stored before it has, and it is the first product of that id
    the catalog held before the insert, if there was one; when the catalog
    held no product with that id before, it is [p] itself. *)
Theorem AddProduct_then_GetProduct (pArr : Products) (p product : Product) :
  Id product = Id p ->
  exists found,
    AddProduct pArr p = (pArr ++ [p], None) /\
    GetProduct (pArr ++ [p]) product = (pArr ++ [p], (found, None)) /\
    Id found = Id p /\
    (without_Id (Id p) pArr -> found = p) /\
    (exists pre post,
       pArr ++ [p] = pre ++ found :: post /\ without_Id (Id p) pre) /\
    (forall pre q post,
       pArr = pre ++ q :: post -> without_Id (Id p) pre -> Id q = Id p -> found = q).
Proof.
  intros Hid.
  destruct (by_first_with_Id (Id p) pArr) as [Habs | (pre & q & post & -> & Hq & Hpre)].
  - exists p. split; [reflexivity|]. split; [|split; [reflexivity|split; [auto|split]]].
    + apply GetProduct_first; [|exact Hid]. apply without_Id_elem_of, Habs.
    + exists pArr, []. split; [reflexivity | exact Habs].
    + intros pre q post -> _ Hq. exfalso.
      apply (without_Id_elem_of _ _ Habs q); [|exact Hq].
      apply elem_of_app. right. left.
  - exists q. split; [reflexivity|]. split; [|split; [exact Hq|split; [|split]]].
    + rewrite <- app_assoc. simpl. apply GetProduct_first; [|congruence].
      rewrite Hq. apply without_Id_elem_of, Hpre.
    + intros Habs. exfalso. apply (without_Id_elem_of _ _ Habs q); [|exact Hq].
      apply elem_of_app. right. left.
    + exists pre, (post ++ [p]). split; [|exact Hpre].
      rewrite <- app_assoc. reflexivity.
    + intros pre' q' post' Heq Hpre' Hq'.
      pose proof (first_with_Id_first (Id p) pre q post
                    (without_Id_elem_of _ _ Hpre) Hq) as Hfirst.
      rewrite Heq in Hfirst.
      rewrite (first_with_Id_first (Id p) pre' q' post'
                 (without_Id_elem_of _ _ Hpre') Hq') in Hfirst.
      injection Hfirst as _ Hsame. symmetry. exact Hsame.
Qed.

Lemma AddProduct_then_GetProduct_witness :
  Id (lookup 5) = Id Kiwi /\ without_Id (Id Kiwi) catalog /\
  GetProduct (catalog ++ [Kiwi]) (lookup 5) = (catalog ++ [Kiwi], (Kiwi, None)) /\
  Id (lookup 1) = Id GreenApple /\
  [Apple; Orange; Bananas; Pizza] = [] ++ Apple :: [Orange; Bananas; Pizza] /\
  without_Id (Id GreenApple) [] /\ Id Apple = Id GreenApple /\
  GetProduct (catalog ++ [GreenApple]) (lookup 1) = (catalog ++ [GreenApple], (Apple, None)).
Proof.
  destruct (AddProduct_then_GetProduct catalog Kiwi (lookup 5) eq_refl)
    as (found & _ & Hget & _ & Hfound & _).
  destruct (AddProduct_then_GetProduct catalog GreenApple (lookup 1) eq_refl)
    as (first & _ & Hget1 & _ & _ & _ & Hfirst).
  assert (Habs : without_Id (Id Kiwi) catalog) by (repeat constructor; discriminate).
  assert (Hnone : without_Id (Id GreenApple) []) by constructor.
  split; [reflexivity|]. split; [exact Habs|]. split.
  { rewrite Hget, (Hfound Habs). reflexivity. }
  split; [reflexivity|]. split; [reflexivity|]. split; [exact Hnone|].
  split; [reflexivity|].
  rewrite Hget1, (Hfirst [] Apple [Orange; Bananas; Pizza] eq_refl Hnone eq_refl).
  reflexivity.
Defined.

(** C3. For every catalog and every id that no product of it has,
    [GetProduct], [UpdateProduct] and [DeleteProduct] each return the error
    "Product <id> does not exist", which names that id and no other, and
    leave the catalog as it was, element for element. *)
Theorem not_found_leaves_catalog (pArr : Products) (p : Product) :
  without_Id (Id p) pArr ->
  let err := Some ("Product <" +:+ FormatInt (Id p) +:+ "> does not exist") in
  GetProduct pArr p = (pArr, (p, err)) /\
  UpdateProduct pArr p = (pArr, err) /\
  DeleteProduct pArr p = (pArr, err) /\
  (forall id, does_not_exist id = err -> id = Id p).
Proof.
  intros Habs err. subst err. rewrite <- does_not_exist_text.
  auto using GetProduct_absent, UpdateProduct_absent, DeleteProduct_absent,
    does_not_exist_inj.
Qed.

Lemma not_found_leaves_catalog_witness :
  without_Id 7 catalog /\
  GetProduct catalog (lookup 7) = (catalog, (lookup 7, Some "Product <7> does not exist")) /\
  UpdateProduct catalog (lookup 7) = (catalog, Some "Product <7> does not exist") /\
  DeleteProduct catalog (lookup 7) = (catalog, Some "Product <7> does not exist").
Proof.
  assert (Habs : without_Id (Id (lookup 7)) catalog) by (repeat constructor; discriminate).
  destruct (not_found_leaves_catalog catalog (lookup 7) Habs) as (Hg & Hu & Hd & _).
  split; [exact Habs|]. split; [exact Hg|]. split; [exact Hu | exact Hd].
Defined.

(** C4. For every catalog that holds a product with the id of [p],
    [UpdateProduct p] succeeds and gives the first such entry the name and
    the price of [p]; the id of that entry, every other entry and the
    number of entries are unchanged. *)
Theorem UpdateProduct_in_place (pArr : Products) (p : Product) :
  (exists q, q ∈ pArr /\ Id q = Id p) ->
  exists pArr' i old,
    UpdateProduct pArr p = (pArr', None) /\
    pArr !! i = Some old /\ Id old = Id p /\
    pArr' !! i = Some (mkProduct (Id old) (Name p) (Price p)) /\
    (forall j, j <> i -> pArr' !! j = pArr !! j) /\
    length pArr' = length pArr.
Proof.
  intros (q & Hin & Hq).
  destruct (first_with_Id_present (Id p) pArr q Hin Hq)
    as (pre & old & post & -> & Hold & Hpre).
  exists (pre ++ p :: post), (length pre), old.
  rewrite <- Hold in Hpre. split; [|split; [|split; [|split; [|split]]]].
  - apply UpdateProduct_first; auto.
  - apply list_lookup_middle. reflexivity.
  - exact Hold.
  - rewrite Hold. destruct p. apply list_lookup_middle. reflexivity.
  - intros j Hj. rewrite <- (insert_at_split pre old p post).
    apply list_lookup_insert_ne. auto.
  - rewrite !length_app. reflexivity.
Qed.

Lemma UpdateProduct_in_place_witness :
  (exists q, q ∈ catalog /\ Id q = Id Bananas') /\
  (exists pArr' i old,
     UpdateProduct catalog Bananas' = (pArr', None) /\
     catalog !! i = Some old /\ Id old = Id Bananas' /\
     pArr' !! i = Some (mkProduct (Id old) (Name Bananas') (Price Bananas')) /\
     (forall j, j <> i -> pArr' !! j = catalog !! j) /\
     length pArr' = length catalog).
Proof.
  assert (Hin : exists q, q ∈ catalog /\ Id q = Id Bananas').
  { exists Bananas. split; [|reflexivity]. do 2 right. left. }
  split; [exact Hin|]. exact (UpdateProduct_in_place catalog Bananas' Hin).
Defined.

Example UpdateProduct_Bananas :
  UpdateProduct catalog Bananas' = ([Apple; Orange; Bananas'; Pizza], None).
Proof. reflexivity. Qed.
End Ephemeral_contract.

Section Ephemeral_removal.
Import dummydb samples.

Lemma filter_Id_nil (id : Z) (pArr : Products) :
  filter (fun q => Id q = id) pArr = [] -> without_Id id pArr.
Proof.
  intros Hnil. apply elem_of_without_Id. intros q Hin Hq.
  exact (filter_nil_not_elem_of _ _ _ Hnil Hq Hin).
Qed.

Lemma without_Id_filter (id : Z) (pArr : Products) :
  without_Id id pArr -> filter (fun q => Id q = id) pArr = [].
Proof.
  induction 1 as [|q l Hq _ IH]; [reflexivity|].
  rewrite filter_cons_False by exact Hq. exact IH.
Qed.

(** C5. For every catalog with exactly one product of the id of [p],
    [DeleteProduct p] succeeds and takes that one product out: the catalog
    is one shorter, the products before and after it are as they were and
    in the same order, and a second [DeleteProduct p] returns the error
    "Product <id> does not exist" and changes nothing. *)
Theorem DeleteProduct_shrinks_by_one (pArr : Products) (p : Product) :
  length (filter (fun q => Id q = Id p) pArr) = 1%nat ->
  exists pre q post,
    pArr = pre ++ q :: post /\ Id q = Id p /\
    DeleteProduct pArr p = (pre ++ post, None) /\
    S (length (pre ++ post)) = length pArr /\
    without_Id (Id p) (pre ++ post) /\
    DeleteProduct (pre ++ post) p = (pre ++ post, does_not_exist (Id p)).
Proof.
  intros Hone.
  destruct (by_first_with_Id (Id p) pArr) as [Habs | (pre & q & post & -> & Hq & Hpre)].
  { rewrite (without_Id_filter _ _ Habs) in Hone. discriminate. }
  rewrite filter_app, (without_Id_filter _ _ Hpre) in Hone.
  rewrite filter_cons_True in Hone by exact Hq.
  simpl in Hone.
  assert (Hpost : without_Id (Id p) post).
  { apply filter_Id_nil. destruct (filter _ post); [reflexivity | discriminate]. }
  assert (Hrest : without_Id (Id p) (pre ++ post)) by (apply Forall_app; auto).
  exists pre, q, post. repeat split; try assumption.
  - apply DeleteProduct_first; [|congruence].
    rewrite Hq. apply without_Id_elem_of, Hpre.
  - rewrite !length_app. simpl. lia.
  - apply DeleteProduct_absent, Hrest.
Qed.

Lemma DeleteProduct_shrinks_by_one_witness :
  length (filter (fun q => Id q = Id (lookup 3)) catalog) = 1%nat /\
  (exists pre q post,
     catalog = pre ++ q :: post /\ Id q = 3 /\
     DeleteProduct catalog (lookup 3) = (pre ++ post, None) /\
     S (length (pre ++ post)) = length catalog /\
     without_Id 3 (pre ++ post) /\
     DeleteProduct (pre ++ post) (lookup 3) = (pre ++ post, does_not_exist 3)).
Proof.
  split; [reflexivity|].
  exact (DeleteProduct_shrinks_by_one catalog (lookup 3) eq_refl).
Defined.

Example DeleteProduct_Bananas :
  DeleteProduct catalog (lookup 3) = ([Apple; Orange; Pizza], None) /\
  DeleteProduct [Apple; Orange; Pizza] (lookup 3)
  = ([Apple; Orange; Pizza], Some "Product <3> does not exist").
Proof. split; reflexivity. Qed.

(** C10. [AddProduct] appends whatever the catalog holds, so a catalog can
    hold several products of one id; in such a catalog [GetProduct]
    returns the first of them in stored order, [UpdateProduct] replaces
    that first one and [DeleteProduct] removes it, and all that follows
    it, the later products of that id included, stays as it was. *)
Theorem first_of_duplicates (pre : Products) (q : Product) (post : Products)
    (p product : Product) :
  without_Id (Id q) pre -> Id p = Id q -> Id product = Id q ->
  (forall pArr x, AddProduct pArr x = (pArr ++ [x], None)) /\
  GetProduct (pre ++ q :: post) product = (pre ++ q :: post, (q, None)) /\
  UpdateProduct (pre ++ q :: post) p = (pre ++ p :: post, None) /\
  DeleteProduct (pre ++ q :: post) p = (pre ++ post, None).
Proof.
  intros Hpre Hp Hproduct. pose proof (without_Id_elem_of _ _ Hpre) as Hpre'.
  split; [reflexivity|].
  auto using GetProduct_first, UpdateProduct_first, DeleteProduct_first.
Qed.

Lemma first_of_duplicates_witness :
  without_Id 1 [Orange] /\
  fst (AddProduct [Orange; Apple; Bananas] GreenApple) = duplicated /\
  GetProduct duplicated (lookup 1) = (duplicated, (Apple, None)) /\
  UpdateProduct duplicated GreenApple = ([Orange; GreenApple; Bananas; GreenApple], None) /\
  DeleteProduct duplicated (lookup 1) = ([Orange; Bananas; GreenApple], None).
Proof.
  assert (Hpre : without_Id (Id Apple) [Orange]) by (repeat constructor; discriminate).
  destruct (first_of_duplicates [Orange] Apple [Bananas; GreenApple] GreenApple (lookup 1)
              Hpre eq_refl eq_refl) as (Hadd & Hget & Hupd & _).
  destruct (first_of_duplicates [Orange] Apple [Bananas; GreenApple] (lookup 1) (lookup 1)
              Hpre eq_refl eq_refl) as (_ & _ & _ & Hdel).
  split; [exact Hpre|]. split; [rewrite Hadd; reflexivity|].
  split; [exact Hget|]. split; [exact Hupd | exact Hdel].
Defined.
End Ephemeral_removal.

Section Ephemeral_listing.
Import dummydb samples.

(** C6, the claim as stated fails: [sort.Slice] sorts the array that
    [Items] points to, so no implementation of it can leave the sample
    catalog, stored cheapest first, in its stored order. *)
Lemma GetAll_reorders_Items_counterexample :
  ~ exists sort_Slice : sorter,
      sort_Slice_contract sort_Slice /\
      fst (GetAll sort_Slice catalog) = catalog.
Proof.
  intros (sort_Slice & Hsort & Heq). simpl in Heq.
  destruct (sort_sample_catalog sort_Slice Hsort) as [Hr | Hr];
    rewrite Hr in Heq; discriminate Heq.
Qed.

(** What the package's own sort does to the stored sequence there. *)
Example GetAll_insertionSort_catalog :
  fst (GetAll insertionSort catalog) = [Pizza; Bananas; Apple; Orange].
Proof. reflexivity. Qed.

(** C6, amended. For every catalog, [GetAll] sorts the stored sequence
    itself: after the call the catalog holds the sequence the call
    returns, which is a rearrangement of the sequence before the call
    (the same products, each as many times), in the order of [GetAll]
    whenever the prices are numbers. *)
Theorem GetAll_sorts_Items_in_place (sort_Slice : sorter) (pArr : Products) :
  sort_Slice_contract sort_Slice ->
  exists r,
    GetAll sort_Slice pArr = (r, (r, None)) /\
    pArr ≡ₚ r /\ length r = length pArr /\
    (priced Price pArr -> non_increasing (map Price r)).
Proof.
  intros Hsort. eexists. split; [reflexivity|].
  destruct (Hsort Product price_greater pArr) as [Hperm _].
  split; [exact Hperm|]. split; [symmetry; apply Permutation_length, Hperm|].
  intros Hp. apply (sort_by_price Price sort_Slice pArr Hsort Hp).
Qed.

Lemma GetAll_sorts_Items_in_place_witness :
  sort_Slice_contract insertionSort /\ priced Price catalog /\
  (exists r,
     GetAll insertionSort catalog = (r, (r, None)) /\
     catalog ≡ₚ r /\ length r = length catalog /\
     non_increasing (map Price r)).
Proof.
  assert (Hp : priced Price catalog) by repeat constructor.
  split; [exact insertionSort_contract|]. split; [exact Hp|].
  destruct (GetAll_sorts_Items_in_place insertionSort catalog insertionSort_contract)
    as (r & Heq & Hperm & Hlen & Hr).
  exists r. auto.
Defined.
End Ephemeral_listing.

(** ** The rendering of a product *)

Section Rendering.
Import samples.

(** C8, the claim as stated fails: the format of [Product.String] is
    ["<(Id: %v) {%v} @ %v>"], whose braces are characters of the text, so
    the name comes out between braces whatever the price prints as. *)
Lemma Product_String_counterexample :
  ~ exists FormatFloat : float64 -> string,
      dummydb.Product_String FormatFloat Apple
      = "<(Id: " +:+ FormatInt 1 +:+ ") " +:+ "Apple" +:+ " @ "
          +:+ FormatFloat f0_98 +:+ ">".
Proof. intros (FormatFloat & Heq). discriminate Heq. Qed.

(** C8, amended. For every product, of either backend, the rendering is
    the text "<(Id: ", the id, ") {", the name, "} @ ", the price and ">":
    the form [<(Id: {id}) {name} @ {price}>] with the id and the price in
    place of their placeholders, and the name between the braces of
    its own. *)
Theorem Product_String_form (FormatFloat : float64 -> string) :
  (forall p : dummydb.Product,
     dummydb.Product_String FormatFloat p
     = "<(Id: " +:+ FormatInt (dummydb.Id p) +:+ ") {" +:+ dummydb.Name p +:+ "} @ "
         +:+ FormatFloat (dummydb.Price p) +:+ ">") /\
  (forall p : dynamodb.Product,
     dynamodb.Product_String FormatFloat p
     = "<(Id: " +:+ FormatInt (dynamodb.Id p) +:+ ") {" +:+ dynamodb.Name p +:+ "} @ "
         +:+ FormatFloat (dynamodb.Price p) +:+ ">").
Proof. split; intros p; reflexivity. Qed.

Example Product_String_Apple (FormatFloat : float64 -> string) :
  dummydb.Product_String FormatFloat Apple
  = "<(Id: 1) {Apple} @ " +:+ FormatFloat f0_98 +:+ ">".
Proof. reflexivity. Qed.
End Rendering.

(** ** The DynamoDB backend: errors and bootstrap *)

Section Persistent_backend.
Import dynamodb.
Context {Item World : Type} (sdk : SDK Item World).

(** Where the package does look at the error of the store: [GetAll]
    returns the failure of [Scan], [Initialize] that of [tableExists]. *)
Lemma GetAll_Scan_error (sort_Slice : sorter) (w w' : World) (items : list Item) (e : string) :
  Scan sdk TableName w = (w', (items, Some e)) ->
  GetAll sdk sort_Slice w = (w', ([], Some ("Query GetAll failed:" +:+ LF +:+ e))).
Proof.
  intros Hscan. unfold GetAll, bind. rewrite Hscan.
  change (Errorf ("Query GetAll failed:" +:+ LF +:+ "%v") [e])
    with (Some ("Query GetAll failed:" +:+ LF +:+ e +:+ EmptyString)).
  rewrite append_empty_r. reflexivity.
Qed.

Lemma Initialize_ListTables_error (w0 w1 w2 w3 : World) (r : list string * error)
    (names : list string) (e : string) :
  NewSession sdk Region Endpoint w0 = (w1, None) ->
  ListTables sdk w1 = (w2, r) ->
  ListTables sdk w2 = (w3, (names, Some e)) ->
  Initialize sdk w0 = (w3, Some ("INITIALIZATION ERROR: " +:+ e)).
Proof.
  intros Hsess Hlist1 Hlist2. unfold Initialize, listTables, tableExists, bind, ret.
  rewrite Hsess. cbv beta iota. rewrite Hlist1.
  destruct r as [names1 [e1|]]; cbv beta iota; rewrite Hlist2; cbv beta iota;
    unfold Errorf; cbn [Sprintf]; rewrite !append_empty_r; reflexivity.
Qed.

(** Where it does not. *)
Lemma GetProduct_Query_error (product : Product) (w w' : World) (e : string) :
  Query sdk TableName (Id product) w = (w', ([], Some e)) ->
  GetProduct sdk product w = (w', (product, does_not_exist (Id product))).
Proof. intros Hquery. unfold GetProduct, bind. rewrite Hquery. reflexivity. Qed.

Lemma Initialize_CreateTable_error (w0 w1 w2 w3 w4 : World) (r : list string * error)
    (names : list string) (e : string) :
  NewSession sdk Region Endpoint w0 = (w1, None) ->
  ListTables sdk w1 = (w2, r) ->
  ListTables sdk w2 = (w3, (names, None)) ->
  existsb (String.eqb TableName) names = false ->
  CreateTable sdk TableName w3 = (w4, Some e) ->
  Initialize sdk w0 = (w4, None).
Proof.
  intros Hsess Hlist1 Hlist2 Hnew Hcreate.
  unfold Initialize, listTables, tableExists, createTable, bind, ret.
  rewrite Hsess. cbv beta iota. rewrite Hlist1.
  destruct r as [names1 [e1|]]; cbv beta iota; rewrite Hlist2; cbv beta iota;
    rewrite Hnew; cbn [negb]; rewrite Hcreate; reflexivity.
Qed.
End Persistent_backend.

Section Bootstrap.
Import dynamodb fakestore.

(** C7. The claim does not hold of the code. With the store refusing
    queries, [GetProduct] answers "Product <1> does not exist" for a
    product that is stored, and the failure of the query is lost; with
    the store refusing to create the table, [createTable] returns the
    failure and [Initialize] returns [nil]; with the store refusing
    writes, the table is created empty and [Initialize] returns [nil]. *)
Theorem storage_errors_dropped :
  let asked := mkProduct 1 EmptyString (S754_zero false) in
  let no_query := seeded (only ReqQuery) in
  let no_create := fresh (only ReqCreateTable) in
  let no_put := fresh (only ReqPutItem) in
  (Query sdk TableName 1 no_query = (no_query, ([], Some unavailable)) /\
   GetProduct sdk asked no_query
   = (no_query, (asked, Some "Product <1> does not exist"))) /\
  (createTable sdk no_create = (no_create, Some unavailable) /\
   Initialize sdk no_create = (no_create, None)) /\
  (enterTestData sdk (mkWorld [TableName] [] (only ReqPutItem))
   = (mkWorld [TableName] [] (only ReqPutItem),
      Some ("Error entering test data: AddProduct -> New product could not be added: "
              +:+ unavailable)) /\
   Initialize sdk no_put = (mkWorld [TableName] [] (only ReqPutItem), None)).
Proof. repeat split; reflexivity. Qed.

(** With the store answering, the same calls find the product and return
    the test data. *)
Example GetProduct_seeded :
  GetProduct sdk (mkProduct 1 EmptyString (S754_zero false)) (seeded healthy)
  = (seeded healthy, (mkProduct 1 "Apple" f0_98, None)).
Proof. reflexivity. Qed.

(** C9. The products [Initialize] of the in-memory backend stores are, as
    triples of id, name and price and in this order, the products
    [enterTestData] of the DynamoDB backend inserts once the table is
    created: on a store with no table, the bootstrap leaves the table
    with exactly them. *)
Theorem seed_sets_agree :
  (forall Items : dummydb.Products,
     dummydb.Initialize Items
     = ([ dummydb.mkProduct 1 "Apple" f0_98; dummydb.mkProduct 2 "Orange" f0_98;
          dummydb.mkProduct 3 "Bananas" f2_25;
          dummydb.mkProduct 4 "Frozen Pizza" f4_99 ], None) /\
     map dummydb_triple (fst (dummydb.Initialize Items))
     = map dynamodb_triple testData) /\
  (forall (Item World : Type) (s : SDK Item World),
     enterTestData s = enterTestData_range s testData) /\
  Initialize sdk (fresh healthy) = (mkWorld [TableName] testData healthy, None).
Proof. repeat split; reflexivity. Qed.
End Bootstrap.

(** * Further properties of the code *)

(** ** The in-memory backend: lookups *)

Section Ephemeral_lookups.
Import dummydb samples.

Lemma without_Id_ids (id : Z) (pArr : Products) :
  without_Id id pArr <-> id ∉ map Id pArr.
Proof.
  unfold without_Id. rewrite Forall_forall, list_elem_of_In, in_map_iff. split.
  - intros Habs (q & Hq & Hin%list_elem_of_In). exact (Habs q Hin Hq).
  - intros Hnot q Hin Hq. apply Hnot. exists q. split; [exact Hq|].
    apply list_elem_of_In, Hin.
Qed.

(** What [GetProduct] answers depends on the products of the id alone, in
    their stored order. *)
Lemma GetProduct_filter (pArr : Products) (product : Product) :
  snd (GetProduct pArr product)
  = match filter (fun q => Id q = Id product) pArr with
    | q :: _ => (q, None)
    | [] => (product, does_not_exist (Id product))
    end.
Proof.
  destruct (by_first_with_Id (Id product) pArr)
    as [Habs | (pre & q & post & -> & Hq & Hpre)].
  - rewrite GetProduct_absent, without_Id_filter by exact Habs. reflexivity.
  - rewrite filter_app, (without_Id_filter _ _ Hpre), filter_cons_True by exact Hq.
    rewrite <- Hq in Hpre.
    rewrite (GetProduct_first pre q post (without_Id_elem_of _ _ Hpre) product (eq_sym Hq)).
    reflexivity.
Qed.

(** With ids that are all different, the product of an id is found wherever
    it stands. *)
Lemma GetProduct_unique (pArr : Products) (q product : Product) :
  NoDup (map Id pArr) -> q ∈ pArr -> Id product = Id q ->
  GetProduct pArr product = (pArr, (q, None)).
Proof.
  intros Hnd Hin Hid.
  destruct (first_with_Id_present (Id q) pArr q Hin eq_refl)
    as (pre & q' & post & -> & Hq' & Hpre).
  assert (q' = q) as ->.
  { rewrite map_app in Hnd. simpl in Hnd.
    apply NoDup_app in Hnd as (_ & Hdisj & Hpost). apply NoDup_cons in Hpost as [Hq'post _].
    apply elem_of_app in Hin as [Hin | Hin].
    - exfalso. exact (Hpre q Hin eq_refl).
    - apply elem_of_cons in Hin as [-> | Hin]; [reflexivity|].
      exfalso. apply Hq'post. rewrite Hq'.
      apply list_elem_of_In, in_map, list_elem_of_In, Hin. }
  apply GetProduct_first; assumption.
Qed.

(** X1. [GetProduct] never changes the catalog; it succeeds exactly when the
    catalog holds a product with the id asked for, and the product it then
    returns is one of the catalog and has that id. *)
Theorem GetProduct_found (pArr : Products) (product : Product) :
  fst (GetProduct pArr product) = pArr /\
  ((exists q, q ∈ pArr /\ Id q = Id product) <->
   snd (snd (GetProduct pArr product)) = None) /\
  (forall p, snd (GetProduct pArr product) = (p, None) ->
     p ∈ pArr /\ Id p = Id product).
Proof.
  destruct (by_first_with_Id (Id product) pArr)
    as [Habs | (pre & q & post & -> & Hq & Hpre)].
  - rewrite GetProduct_absent by exact Habs. simpl. split; [reflexivity|]. split.
    + split; [|discriminate]. intros (q & Hin & Hq).
      exfalso. exact (without_Id_elem_of _ _ Habs q Hin Hq).
    + intros p [=].
  - rewrite <- Hq in Hpre.
    rewrite (GetProduct_first pre q post (without_Id_elem_of _ _ Hpre) product (eq_sym Hq)).
    simpl. split; [reflexivity|]. split.
    + split; [reflexivity|]. intros _. exists q. split; [|exact Hq].
      apply elem_of_app. right. left.
    + intros p [= <-]. split; [|exact Hq]. apply elem_of_app. right. left.
Qed.

Lemma GetProduct_found_witness :
  (exists q, q ∈ duplicated /\ Id q = Id (lookup 1)) /\
  snd (snd (GetProduct duplicated (lookup 1))) = None /\
  Apple ∈ duplicated /\ Id Apple = 1.
Proof.
  destruct (GetProduct_found duplicated (lookup 1)) as (_ & Hiff & Hin).
  assert (Hex : exists q, q ∈ duplicated /\ Id q = Id (lookup 1)).
  { exists Apple. split; [right; left | reflexivity]. }
  split; [exact Hex|]. split; [exact (proj1 Hiff Hex)|].
  exact (Hin Apple eq_refl).
Defined.

(** X2. After an [UpdateProduct] that succeeds, [GetProduct] with the id of
    the product returns the product that was written. *)
Theorem UpdateProduct_then_GetProduct (pArr : Products) (p product : Product) :
  (exists q, q ∈ pArr /\ Id q = Id p) -> Id product = Id p ->
  exists pArr',
    UpdateProduct pArr p = (pArr', None) /\
    GetProduct pArr' product = (pArr', (p, None)).
Proof.
  intros (q & Hin & Hq) Hid.
  destruct (first_with_Id_present (Id p) pArr q Hin Hq)
    as (pre & old & post & -> & Hold & Hpre).
  exists (pre ++ p :: post). split.
  - apply UpdateProduct_first; [|congruence]. rewrite Hold. exact Hpre.
  - apply GetProduct_first; assumption.
Qed.

Lemma UpdateProduct_then_GetProduct_witness :
  (exists q, q ∈ catalog /\ Id q = Id Bananas') /\
  (exists pArr',
     UpdateProduct catalog Bananas' = (pArr', None) /\
     GetProduct pArr' (lookup 3) = (pArr', (Bananas', None))).
Proof.
  assert (Hex : exists q, q ∈ catalog /\ Id q = Id Bananas').
  { exists Bananas. split; [do 2 right; left | reflexivity]. }
  split; [exact Hex|].
  exact (UpdateProduct_then_GetProduct catalog Bananas' (lookup 3) Hex eq_refl).
Defined.

(** X3. [UpdateProduct] with the same product a second time changes nothing
    more and answers as the first time, whether the id is stored or not. *)
Theorem UpdateProduct_idempotent (pArr : Products) (p : Product) :
  UpdateProduct (fst (UpdateProduct pArr p)) p = UpdateProduct pArr p.
Proof.
  destruct (by_first_with_Id (Id p) pArr)
    as [Habs | (pre & q & post & -> & Hq & Hpre)].
  - rewrite (UpdateProduct_absent _ _ Habs). simpl. apply UpdateProduct_absent, Habs.
  - pose proof (without_Id_elem_of _ _ Hpre) as Hpre'.
    rewrite (UpdateProduct_first pre q post) by (rewrite ?Hq; auto). simpl.
    apply UpdateProduct_first; auto.
Qed.
End Ephemeral_lookups.

(** ** The in-memory backend: how the operations compose *)

Section Ephemeral_composition.
Import dummydb samples.

Lemma count_Id_split (id : Z) (pre : Products) (q : Product) (post : Products) :
  without_Id id pre -> Id q = id ->
  count_Id id (pre ++ q :: post) = S (count_Id id post) /\
  count_Id id (pre ++ post) = count_Id id post.
Proof.
  intros Hpre Hq. unfold count_Id.
  rewrite !filter_app, (without_Id_filter _ _ Hpre), filter_cons_True by exact Hq.
  split; reflexivity.
Qed.

Lemma filter_other_Id_split (id : Z) (pre : Products) (q p : Product) (post : Products) :
  Id q <> id -> Id p <> id ->
  filter (fun r => Id r = id) (pre ++ q :: post) = filter (fun r => Id r = id) (pre ++ post) /\
  filter (fun r => Id r = id) (pre ++ p :: post) = filter (fun r => Id r = id) (pre ++ post).
Proof.
  intros Hq Hp. rewrite !filter_app, !filter_cons_False by assumption.
  split; reflexivity.
Qed.

(** X4. On a catalog that holds the id, [DeleteProduct] succeeds and removes
    one product of that id and nothing else: the catalog is one product
    shorter, holds one product of the id less, and its products of the
    other ids are the same, in the same order. *)
Theorem DeleteProduct_one_of_id (pArr : Products) (p : Product) :
  (exists q, q ∈ pArr /\ Id q = Id p) ->
  exists pArr',
    DeleteProduct pArr p = (pArr', None) /\
    S (length pArr') = length pArr /\
    S (count_Id (Id p) pArr') = count_Id (Id p) pArr /\
    filter (fun q => Id q <> Id p) pArr' = filter (fun q => Id q <> Id p) pArr.
Proof.
  intros (q & Hin & Hq).
  destruct (first_with_Id_present (Id p) pArr q Hin Hq)
    as (pre & old & post & -> & Hold & Hpre).
  exists (pre ++ post). split; [|split; [|split]].
  - apply DeleteProduct_first; [|congruence]. rewrite Hold. exact Hpre.
  - rewrite !length_app. simpl. lia.
  - destruct (count_Id_split (Id p) pre old post) as [-> ->];
      auto using elem_of_without_Id.
  - rewrite !filter_app, filter_cons_False; [reflexivity|]. intros Hne. exact (Hne Hold).
Qed.

Lemma DeleteProduct_one_of_id_witness :
  (exists q, q ∈ duplicated /\ Id q = Id (lookup 1)) /\
  (exists pArr',
     DeleteProduct duplicated (lookup 1) = (pArr', None) /\
     S (length pArr') = length duplicated /\
     S (count_Id 1 pArr') = count_Id 1 duplicated /\
     filter (fun q => Id q <> 1) pArr' = filter (fun q => Id q <> 1) duplicated).
Proof.
  assert (Hex : exists q, q ∈ duplicated /\ Id q = Id (lookup 1)).
  { exists Apple. split; [right; left | reflexivity]. }
  split; [exact Hex|]. exact (DeleteProduct_one_of_id duplicated (lookup 1) Hex).
Defined.

(** X5. [AddProduct] of a product whose id the catalog does not hold,
    followed by [DeleteProduct] with that id, gives the catalog back as it
    was. *)
Theorem AddProduct_then_DeleteProduct (pArr : Products) (p p' : Product) :
  without_Id (Id p) pArr -> Id p' = Id p ->
  DeleteProduct (fst (AddProduct pArr p)) p' = (pArr, None).
Proof.
  intros Habs Hid. simpl.
  rewrite (DeleteProduct_first pArr p [] (without_Id_elem_of _ _ Habs) p' Hid).
  rewrite app_nil_r. reflexivity.
Qed.

Lemma AddProduct_then_DeleteProduct_witness :
  without_Id (Id Kiwi) catalog /\
  DeleteProduct (fst (AddProduct catalog Kiwi)) (lookup 5) = (catalog, None).
Proof.
  assert (Habs : without_Id (Id Kiwi) catalog) by (repeat constructor; discriminate).
  split; [exact Habs|].
  exact (AddProduct_then_DeleteProduct catalog Kiwi (lookup 5) Habs eq_refl).
Defined.

(** The products of an id are not touched by a call made with another id. *)
Lemma filter_Id_after_other (id : Z) (pArr : Products) (p : Product) :
  Id p <> id ->
  filter (fun r => Id r = id) (fst (AddProduct pArr p)) = filter (fun r => Id r = id) pArr /\
  filter (fun r => Id r = id) (fst (UpdateProduct pArr p)) = filter (fun r => Id r = id) pArr /\
  filter (fun r => Id r = id) (fst (DeleteProduct pArr p)) = filter (fun r => Id r = id) pArr.
Proof.
  intros Hne. split.
  { simpl. rewrite filter_app, filter_cons_False by exact Hne. apply app_nil_r. }
  destruct (by_first_with_Id (Id p) pArr)
    as [Habs | (pre & q & post & -> & Hq & Hpre)].
  - rewrite UpdateProduct_absent, DeleteProduct_absent by exact Habs. split; reflexivity.
  - pose proof (without_Id_elem_of _ _ Hpre) as Hpre'. rewrite <- Hq in Hpre'.
    rewrite (UpdateProduct_first pre q post Hpre' p (eq_sym Hq)).
    rewrite (DeleteProduct_first pre q post Hpre' p (eq_sym Hq)). simpl.
    destruct (filter_other_Id_split id pre q p post) as [Hq' Hp']; [congruence | exact Hne |].
    rewrite Hp', Hq'. split; reflexivity.
Qed.

(** X6. A call of [AddProduct], [UpdateProduct] or [DeleteProduct] does not
    change what [GetProduct] answers for any other id. *)
Theorem other_ids_undisturbed (pArr : Products) (p product : Product) :
  Id p <> Id product ->
  snd (GetProduct (fst (AddProduct pArr p)) product) = snd (GetProduct pArr product) /\
  snd (GetProduct (fst (UpdateProduct pArr p)) product) = snd (GetProduct pArr product) /\
  snd (GetProduct (fst (DeleteProduct pArr p)) product) = snd (GetProduct pArr product).
Proof.
  intros Hne. rewrite !GetProduct_filter.
  destruct (filter_Id_after_other (Id product) pArr p Hne) as (-> & -> & ->).
  repeat split; reflexivity.
Qed.

Lemma other_ids_undisturbed_witness :
  Id GreenApple <> Id (lookup 3) /\
  snd (GetProduct (fst (AddProduct catalog GreenApple)) (lookup 3)) = (Bananas, None) /\
  snd (GetProduct (fst (UpdateProduct catalog GreenApple)) (lookup 3)) = (Bananas, None) /\
  snd (GetProduct (fst (DeleteProduct catalog GreenApple)) (lookup 3)) = (Bananas, None).
Proof.
  assert (Hne : Id GreenApple <> Id (lookup 3)) by discriminate.
  destruct (other_ids_undisturbed catalog GreenApple (lookup 3) Hne) as (Ha & Hu & Hd).
  split; [exact Hne|]. rewrite Ha, Hu, Hd. repeat split; reflexivity.
Defined.
End Ephemeral_composition.

(** ** The in-memory backend: what the operations keep *)

Section Ephemeral_invariants.
Import dummydb samples.
Variable sort_Slice : sorter.
Hypothesis sort_Slice_ok : sort_Slice_contract sort_Slice.

Lemma GetAll_Permutation (pArr : Products) : pArr ≡ₚ fst (GetAll sort_Slice pArr).
Proof. destruct (sort_Slice_ok Product price_greater pArr) as [Hperm _]. exact Hperm. Qed.

(** [UpdateProduct] leaves every id where it is. *)
Lemma UpdateProduct_ids (pArr : Products) (p : Product) :
  map Id (fst (UpdateProduct pArr p)) = map Id pArr.
Proof.
  destruct (by_first_with_Id (Id p) pArr)
    as [Habs | (pre & q & post & -> & Hq & Hpre)].
  - rewrite UpdateProduct_absent by exact Habs. reflexivity.
  - pose proof (without_Id_elem_of _ _ Hpre) as Hpre'. rewrite <- Hq in Hpre'.
    rewrite (UpdateProduct_first pre q post Hpre' p (eq_sym Hq)). simpl.
    rewrite !map_app. simpl. rewrite Hq. reflexivity.
Qed.

Lemma DeleteProduct_ids (pArr : Products) (p : Product) :
  NoDup (map Id pArr) -> NoDup (map Id (fst (DeleteProduct pArr p))).
Proof.
  intros Hnd.
  destruct (by_first_with_Id (Id p) pArr)
    as [Habs | (pre & q & post & -> & Hq & Hpre)].
  - rewrite DeleteProduct_absent by exact Habs. exact Hnd.
  - pose proof (without_Id_elem_of _ _ Hpre) as Hpre'. rewrite <- Hq in Hpre'.
    rewrite (DeleteProduct_first pre q post Hpre' p (eq_sym Hq)). simpl.
    rewrite map_app in Hnd |- *. simpl in Hnd.
    apply NoDup_app in Hnd as (Hnpre & Hdisj & [_ Hnpost]%NoDup_cons).
    apply NoDup_app. split; [exact Hnpre|]. split; [|exact Hnpost].
    intros x Hx Hx'. apply (Hdisj x Hx). right. exact Hx'.
Qed.

(** X7. A catalog in which no two products share an id stays so through
    [UpdateProduct], [DeleteProduct] and [GetAll], and through [AddProduct]
    exactly when the id of the new product is not yet in the catalog. *)
Theorem unique_ids_kept (pArr : Products) (p : Product) :
  NoDup (map Id pArr) ->
  NoDup (map Id (fst (UpdateProduct pArr p))) /\
  NoDup (map Id (fst (DeleteProduct pArr p))) /\
  NoDup (map Id (fst (GetAll sort_Slice pArr))) /\
  (NoDup (map Id (fst (AddProduct pArr p))) <-> without_Id (Id p) pArr).
Proof.
  intros Hnd. split; [|split; [|split]].
  - rewrite UpdateProduct_ids. exact Hnd.
  - apply DeleteProduct_ids, Hnd.
  - rewrite <- (Permutation_map Id (GetAll_Permutation pArr)). exact Hnd.
  - simpl. rewrite map_app, without_Id_ids. simpl. rewrite NoDup_app. split.
    + intros (_ & Hdisj & _) Hin. apply (Hdisj (Id p) Hin). left.
    + intros Hnot. split; [exact Hnd|]. split; [|apply NoDup_singleton].
      intros x Hx ->%list_elem_of_singleton. exact (Hnot Hx).
Qed.

(** X8. As long as no two products share an id, [GetAll], which reorders
    the stored sequence, does not change what [GetProduct] answers. *)
Theorem GetAll_keeps_lookups (pArr : Products) (product : Product) :
  NoDup (map Id pArr) ->
  snd (GetProduct (fst (GetAll sort_Slice pArr)) product) = snd (GetProduct pArr product).
Proof.
  intros Hnd. pose proof (GetAll_Permutation pArr) as Hperm.
  set (r := fst (GetAll sort_Slice pArr)) in *. clearbody r.
  assert (Hndr : NoDup (map Id r)).
  { rewrite <- (Permutation_map Id Hperm). exact Hnd. }
  destruct (by_first_with_Id (Id product) pArr)
    as [Habs | (pre & q & post & Heq & Hq & _)].
  - rewrite (GetProduct_absent pArr) by exact Habs.
    rewrite GetProduct_absent; [reflexivity|]. unfold without_Id. rewrite <- Hperm. exact Habs.
  - assert (Hin : q ∈ pArr) by (rewrite Heq; apply elem_of_app; right; left).
    rewrite (GetProduct_unique pArr q product Hnd Hin (eq_sym Hq)).
    rewrite (GetProduct_unique r q product Hndr); [reflexivity | | auto].
    rewrite <- Hperm. exact Hin.
Qed.

(** Every call keeps the prices numbers when the product it brings is so. *)
Lemma after_priced (Items : Products) (op : operation) :
  priced Price Items -> priced_call op -> priced Price (after sort_Slice Items op).
Proof.
  unfold priced. intros Hp Hop. destruct op as [|p|p|p|p]; simpl in *.
  - rewrite <- (GetAll_Permutation Items). exact Hp.
  - apply Forall_app. split; [exact Hp|]. repeat constructor. exact Hop.
  - unfold GetProduct. destruct (first_with_Id _ _) as [[i q]|]; exact Hp.
  - unfold UpdateProduct. destruct (first_with_Id _ _) as [[i q]|]; simpl; [|exact Hp].
    apply Forall_insert; assumption.
  - unfold DeleteProduct. destruct (first_with_Id _ _) as [[i q]|]; simpl; [|exact Hp].
    apply Forall_app. split; [apply Forall_take | apply Forall_drop]; exact Hp.
Qed.

(** X9. From the catalog of [Initialize], after any sequence of calls that
    bring no price that is not a number, the prices of the catalog are
    numbers, and [GetAll] returns them in an order that never increases. *)
Theorem GetAll_sorted_after_calls (Items0 : Products) (ops : list operation) :
  Forall priced_call ops ->
  let Items := after_all sort_Slice (fst (Initialize Items0)) ops in
  priced Price Items /\
  exists r, GetAll sort_Slice Items = (r, (r, None)) /\
            Items ≡ₚ r /\ non_increasing (map Price r).
Proof.
  intros Hops Items.
  assert (Hp : priced Price Items).
  { subst Items. unfold after_all.
    assert (Hstart : priced Price (fst (Initialize Items0))) by repeat constructor.
    revert Hstart. generalize (fst (Initialize Items0)).
    induction Hops as [|op ops Hop _ IH]; intros l Hl; simpl; [exact Hl|].
    apply IH, after_priced; assumption. }
  split; [exact Hp|]. eexists. split; [reflexivity|].
  apply (sort_by_price Price sort_Slice Items sort_Slice_ok Hp).
Qed.
End Ephemeral_invariants.

Lemma unique_ids_kept_witness :
  NoDup (map dummydb.Id samples.catalog) /\
  NoDup (map dummydb.Id (fst (dummydb.UpdateProduct samples.catalog samples.Bananas'))) /\
  NoDup (map dummydb.Id (fst (dummydb.DeleteProduct samples.catalog samples.Bananas'))) /\
  NoDup (map dummydb.Id (fst (dummydb.GetAll insertionSort samples.catalog))) /\
  NoDup (map dummydb.Id (fst (dummydb.AddProduct samples.catalog samples.Kiwi))) /\
  ~ NoDup (map dummydb.Id (fst (dummydb.AddProduct samples.catalog samples.GreenApple))).
Proof.
  assert (Hnd : NoDup (map dummydb.Id samples.catalog)).
  { repeat constructor; rewrite ?elem_of_cons, ?elem_of_nil; intuition discriminate. }
  destruct (unique_ids_kept insertionSort insertionSort_contract samples.catalog
              samples.Bananas' Hnd) as (Hu & Hd & Hg & _).
  destruct (unique_ids_kept insertionSort insertionSort_contract samples.catalog
              samples.Kiwi Hnd) as (_ & _ & _ & Hkiwi).
  destruct (unique_ids_kept insertionSort insertionSort_contract samples.catalog
              samples.GreenApple Hnd) as (_ & _ & _ & Hgreen).
  split; [exact Hnd|]. split; [exact Hu|]. split; [exact Hd|]. split; [exact Hg|]. split.
  - apply Hkiwi. repeat constructor; discriminate.
  - intros Hdup. apply Hgreen in Hdup. apply Forall_cons_1 in Hdup as [Hne _].
    apply Hne. reflexivity.
Defined.

Lemma GetAll_keeps_lookups_witness :
  NoDup (map dummydb.Id samples.catalog) /\
  snd (dummydb.GetProduct (fst (dummydb.GetAll insertionSort samples.catalog)) (samples.lookup 2))
  = (samples.Orange, None).
Proof.
  assert (Hnd : NoDup (map dummydb.Id samples.catalog)).
  { repeat constructor; rewrite ?elem_of_cons, ?elem_of_nil; intuition discriminate. }
  split; [exact Hnd|].
  rewrite (GetAll_keeps_lookups insertionSort insertionSort_contract samples.catalog
             (samples.lookup 2) Hnd).
  reflexivity.
Defined.

(** With two products of one id the same call does change the answer. *)
Example GetAll_changes_lookup_of_duplicates :
  snd (dummydb.GetProduct samples.duplicated (samples.lookup 1)) = (samples.Apple, None) /\
  snd (dummydb.GetProduct (fst (dummydb.GetAll insertionSort samples.duplicated))
         (samples.lookup 1)) = (samples.GreenApple, None).
Proof. split; reflexivity. Qed.

Lemma GetAll_sorted_after_calls_witness :
  let ops := [CallAddProduct samples.Kiwi; CallGetAll; CallDeleteProduct (samples.lookup 1);
              CallUpdateProduct samples.Bananas'] in
  Forall priced_call ops /\
  exists r, dummydb.GetAll insertionSort
              (after_all insertionSort (fst (dummydb.Initialize [])) ops) = (r, (r, None)) /\
            non_increasing (map dummydb.Price r).
Proof.
  intros ops.
  assert (Hops : Forall priced_call ops) by (repeat constructor).
  split; [exact Hops|].
  destruct (GetAll_sorted_after_calls insertionSort insertionSort_contract [] ops Hops)
    as (_ & r & Heq & _ & Hr).
  exists r. split; assumption.
Defined.

(** ** The DynamoDB backend: bootstrap and failures *)

Section Persistent_bootstrap.
Import dynamodb.
Context {Item World : Type} (sdk : SDK Item World).

Lemma existsb_eqb_In (name : string) (names : list string) :
  existsb (String.eqb name) names = true <-> In name names.
Proof.
  rewrite existsb_exists. split.
  - intros (x & Hin & ->%String.eqb_eq). exact Hin.
  - intros Hin. exists name. split; [exact Hin | apply String.eqb_refl].
Qed.

(** X10. When the listing of the tables succeeds, [tableExists] answers
    [true] exactly when the name is among the names listed, with no error;
    when the listing fails it answers [false] with the error of the
    listing. *)
Theorem tableExists_listed (name : string) (w w' : World) (names : list string)
    (err : error) :
  ListTables sdk w = (w', (names, err)) ->
  match err with
  | None => exists b, tableExists sdk name w = (w', (b, None)) /\ (b = true <-> In name names)
  | Some e => tableExists sdk name w = (w', (false, Some e))
  end.
Proof.
  intros Hlist. unfold tableExists, bind, ret. rewrite Hlist.
  destruct err as [e|]; cbv beta iota.
  - unfold Errorf. cbn [Sprintf]. rewrite append_empty_r. reflexivity.
  - eexists. split; [reflexivity|]. apply existsb_eqb_In.
Qed.

(** X11. When the session is made and the table is among the tables listed,
    [Initialize] returns [nil] and the store is left as the session and the
    two listings leave it: nothing is created and nothing is inserted. *)
Theorem Initialize_existing_table (w0 w1 w2 w3 : World) (r : list string * error)
    (names : list string) :
  NewSession sdk Region Endpoint w0 = (w1, None) ->
  ListTables sdk w1 = (w2, r) ->
  ListTables sdk w2 = (w3, (names, None)) ->
  In TableName names ->
  Initialize sdk w0 = (w3, None).
Proof.
  intros Hsess Hlist1 Hlist2 Hin%existsb_eqb_In.
  unfold Initialize, listTables, tableExists, bind, ret.
  rewrite Hsess. cbv beta iota. rewrite Hlist1.
  destruct r as [names1 [e1|]]; cbv beta iota; rewrite Hlist2; cbv beta iota;
    rewrite Hin; reflexivity.
Qed.

(** X12. [Initialize] returns the failure of the session, and the failure
    of the listing of the tables, as "INITIALIZATION ERROR: " followed by
    its message, and does nothing after it: the store is left as the failed
    request leaves it. *)
Theorem Initialize_reports_session_and_listing (w0 w1 w2 w3 : World)
    (r : list string * error) (names : list string) (e : string) :
  (NewSession sdk Region Endpoint w0 = (w1, Some e) ->
   Initialize sdk w0 = (w1, Some ("INITIALIZATION ERROR: " +:+ e))) /\
  (NewSession sdk Region Endpoint w0 = (w1, None) ->
   ListTables sdk w1 = (w2, r) ->
   ListTables sdk w2 = (w3, (names, Some e)) ->
   Initialize sdk w0 = (w3, Some ("INITIALIZATION ERROR: " +:+ e))).
Proof.
  split.
  - intros Hsess. unfold Initialize, bind, ret. rewrite Hsess. cbv beta iota.
    unfold Errorf. cbn [Sprintf]. rewrite append_empty_r. reflexivity.
  - intros Hsess Hlist1 Hlist2.
    unfold Initialize, listTables, tableExists, bind, ret.
    rewrite Hsess. cbv beta iota. rewrite Hlist1.
    destruct r as [names1 [e1|]]; cbv beta iota; rewrite Hlist2; cbv beta iota;
      unfold Errorf; cbn [Sprintf]; rewrite !append_empty_r; reflexivity.
Qed.

Lemma enterTestData_range_app (l1 l2 : list Product) (w w1 : World) :
  enterTestData_range sdk l1 w = (w1, None) ->
  enterTestData_range sdk (l1 ++ l2) w = enterTestData_range sdk l2 w1.
Proof.
  revert w. induction l1 as [|p l1 IH]; intros w Hl1; simpl in *.
  - injection Hl1 as ->. reflexivity.
  - unfold bind in *. destruct (AddProduct sdk p w) as [w' [e|]]; [discriminate Hl1|].
    apply IH, Hl1.
Qed.

(** X13. The loop of [enterTestData] stops at the first product whose
    insert fails: the products before it are inserted, those after it are
    not attempted, and the error is "Error entering test data: " followed
    by the error of that insert. *)
Theorem enterTestData_stops_at_failure (l1 : list Product) (p : Product)
    (l2 : list Product) (w w1 w2 : World) (e : string) :
  enterTestData_range sdk l1 w = (w1, None) ->
  AddProduct sdk p w1 = (w2, Some e) ->
  enterTestData_range sdk (l1 ++ p :: l2) w
  = (w2, Some ("Error entering test data: " +:+ e)).
Proof.
  intros Hl1 Hp. rewrite (enterTestData_range_app l1 (p :: l2) w w1 Hl1).
  simpl. unfold bind, ret. rewrite Hp.
  unfold Errorf. cbn [Sprintf]. rewrite append_empty_r. reflexivity.
Qed.

(** X14. [AddProduct] returns [nil] exactly when the product is encoded and
    the store accepts the item; when the encoding fails the store is not
    asked at all. *)
Theorem AddProduct_nil_iff (p : Product) (w : World) :
  (snd (AddProduct sdk p w) = None <->
   snd (MarshalMap sdk p) = None /\
   snd (PutItem sdk TableName (fst (MarshalMap sdk p)) w) = None) /\
  (snd (MarshalMap sdk p) <> None -> fst (AddProduct sdk p w) = w).
Proof.
  unfold AddProduct, bind, ret.
  destruct (MarshalMap sdk p) as [data [e|]]; simpl.
  - split; [|reflexivity]. split; [discriminate | intros [[=] _]].
  - destruct (PutItem sdk TableName data w) as [w' [e|]]; simpl.
    + split; [|intros []; reflexivity]. split; [discriminate | intros [_ [=]]].
    + split; [|intros []; reflexivity]. split; auto.
Qed.

(** X15. [GetAll] and [GetProduct] hand nothing over with an error: when
    [GetAll] returns an error its list of products is empty, and when
    [GetProduct] returns one the product of the caller is as it was. *)
Theorem nothing_returned_with_error (sort_Slice : sorter) (product : Product) (w : World) :
  (snd (snd (GetAll sdk sort_Slice w)) <> None -> fst (snd (GetAll sdk sort_Slice w)) = []) /\
  (snd (snd (GetProduct sdk product w)) <> None ->
   fst (snd (GetProduct sdk product w)) = product).
Proof.
  split.
  - unfold GetAll, bind, ret. destruct (Scan sdk TableName w) as [w' [items [e|]]]; simpl.
    + reflexivity.
    + destruct (UnmarshalListOfMaps sdk items) as [temp [e|]]; simpl; [reflexivity|].
      intros []; reflexivity.
  - unfold GetProduct, bind, ret.
    destruct (Query sdk TableName (Id product) w) as [w' [[|i items] err]]; simpl.
    + reflexivity.
    + destruct (UnmarshalMap sdk i) as [p [e|]]; simpl; [reflexivity|].
      intros []; reflexivity.
Qed.
End Persistent_bootstrap.

Section Persistent_bootstrap_witnesses.
Import dynamodb fakestore.

Lemma tableExists_listed_witness :
  ListTables sdk (seeded healthy) = (seeded healthy, ([TableName], None)) /\
  exists b, tableExists sdk TableName (seeded healthy) = (seeded healthy, (b, None)) /\
            (b = true <-> In TableName [TableName]).
Proof.
  split; [reflexivity|].
  exact (tableExists_listed sdk TableName (seeded healthy) (seeded healthy)
           [TableName] None eq_refl).
Defined.

Lemma Initialize_existing_table_witness :
  In TableName [TableName] /\
  Initialize sdk (seeded healthy) = (seeded healthy, None) /\
  Initialize sdk (fst (Initialize sdk (fresh healthy))) = Initialize sdk (fresh healthy).
Proof.
  assert (Hin : In TableName [TableName]) by (left; reflexivity).
  pose proof (Initialize_existing_table sdk (seeded healthy) (seeded healthy)
                (seeded healthy) (seeded healthy) ([TableName], None) [TableName]
                eq_refl eq_refl eq_refl Hin) as Hinit.
  split; [exact Hin|]. split; [exact Hinit|]. exact Hinit.
Defined.

Lemma Initialize_reports_session_and_listing_witness :
  Initialize sdk (fresh (only ReqNewSession))
  = (fresh (only ReqNewSession), Some ("INITIALIZATION ERROR: " +:+ unavailable)) /\
  Initialize sdk (fresh (only ReqListTables))
  = (fresh (only ReqListTables), Some ("INITIALIZATION ERROR: " +:+ unavailable)).
Proof.
  split.
  - exact (proj1 (Initialize_reports_session_and_listing sdk
                    (fresh (only ReqNewSession)) (fresh (only ReqNewSession))
                    (fresh (only ReqNewSession)) (fresh (only ReqNewSession))
                    ([], None) [] unavailable) eq_refl).
  - exact (proj2 (Initialize_reports_session_and_listing sdk
                    (fresh (only ReqListTables)) (fresh (only ReqListTables))
                    (fresh (only ReqListTables)) (fresh (only ReqListTables))
                    ([], Some unavailable) [] unavailable) eq_refl eq_refl eq_refl).
Defined.

Lemma enterTestData_stops_at_failure_witness :
  let empty := mkWorld [TableName] [] healthy in
  let two := mkWorld [TableName]
               [mkProduct 1 "Apple" f0_98; mkProduct 2 "Orange" f0_98] healthy in
  enterTestData (strictstore.sdk 3) empty
  = (two, Some ("Error entering test data: AddProduct -> New product could not be added: "
                  +:+ strictstore.rejected)).
Proof.
  intros empty two.
  exact (enterTestData_stops_at_failure (strictstore.sdk 3)
           [mkProduct 1 "Apple" f0_98; mkProduct 2 "Orange" f0_98]
           (mkProduct 3 "Bananas" f2_25) [mkProduct 4 "Frozen Pizza" f4_99]
           empty two two _ eq_refl eq_refl).
Defined.

Lemma AddProduct_nil_iff_witness :
  snd (AddProduct sdk (mkProduct 5 "Kiwi" f2_25) (seeded healthy)) = None /\
  snd (AddProduct sdk (mkProduct 5 "Kiwi" f2_25) (seeded (only ReqPutItem))) <> None.
Proof.
  split.
  - apply (proj1 (AddProduct_nil_iff sdk (mkProduct 5 "Kiwi" f2_25) (seeded healthy))).
    split; reflexivity.
  - intros Hnil.
    apply (proj1 (AddProduct_nil_iff sdk (mkProduct 5 "Kiwi" f2_25)
                    (seeded (only ReqPutItem)))) in Hnil as [_ Hput].
    discriminate Hput.
Defined.

Lemma nothing_returned_with_error_witness :
  snd (snd (GetAll sdk insertionSort (seeded (only ReqScan)))) <> None /\
  fst (snd (GetAll sdk insertionSort (seeded (only ReqScan)))) = [] /\
  snd (snd (GetProduct sdk (mkProduct 9 EmptyString (S754_zero false)) (seeded healthy)))
  <> None /\
  fst (snd (GetProduct sdk (mkProduct 9 EmptyString (S754_zero false)) (seeded healthy)))
  = mkProduct 9 EmptyString (S754_zero false).
Proof.
  assert (Hscan : snd (snd (GetAll sdk insertionSort (seeded (only ReqScan)))) <> None)
    by discriminate.
  assert (Hget : snd (snd (GetProduct sdk (mkProduct 9 EmptyString (S754_zero false))
                             (seeded healthy))) <> None) by discriminate.
  destruct (nothing_returned_with_error sdk insertionSort
              (mkProduct 9 EmptyString (S754_zero false)) (seeded (only ReqScan)))
    as [Hall _].
  destruct (nothing_returned_with_error sdk insertionSort
              (mkProduct 9 EmptyString (S754_zero false)) (seeded healthy))
    as [_ Hone].
  split; [exact Hscan|]. split; [exact (Hall Hscan)|]. split; [exact Hget | exact (Hone Hget)].
Defined.
End Persistent_bootstrap_witnesses.

(** ** The handlers of [main.go] *)

Section Route_ids.
Import strconv.
Variable Quote : string -> string.

Lemma digit_is_no_sign (c : ascii) (d : Z) :
  digit c = Some d ->
  Ascii.eqb c "-" = false /\ Ascii.eqb c "+" = false /\ (0 <= d <= 9)%Z.
Proof.
  destruct c as [[] [] [] [] [] [] [] []]; cbv; intros H; try discriminate H;
    injection H as <-; repeat split; discriminate.
Qed.

Lemma digits_all_digits (s : string) (acc : Z) :
  main.all_digits s = true -> (0 <= acc)%Z ->
  (exists n, digits s acc = Number n /\ (acc <= n)%Z) \/ digits s acc = TooLarge.
Proof.
  revert acc. induction s as [|c s IH]; intros acc Hall Hacc; simpl in *.
  - left. exists acc. split; [reflexivity | lia].
  - destruct (digit c) as [d|] eqn:Hd; [|discriminate Hall].
    destruct (digit_is_no_sign c d Hd) as (_ & _ & Hrange).
    destruct (maxUint64 / 10 + 1 <=? acc)%Z; [right; reflexivity|].
    destruct (maxUint64 <? acc * 10 + d)%Z; [right; reflexivity|].
    destruct (IH (acc * 10 + d)%Z Hall) as [(n & Hn & Hle) | Hlarge]; [lia | |].
    + left. exists n. split; [exact Hn | lia].
    + right. exact Hlarge.
Qed.

(** An id the routes let through is never refused for its syntax: [Atoi]
    returns the number it denotes, or the out-of-range error when the
    number does not fit an [int]. *)
Lemma Atoi_route_id (s : string) :
  main.route_id s = true ->
  (exists n, (0 <= n <= maxInt)%Z /\ Atoi Quote s = (n, None)) \/
  Atoi Quote s = (maxInt, NumError Quote s ErrRange).
Proof.
  destruct s as [|c s]; [discriminate|]. intros Hall.
  pose proof (digits_all_digits (String c s) 0 Hall (Z.le_refl 0)) as Hscan.
  simpl in Hall. destruct (digit c) as [d|] eqn:Hd; [|discriminate Hall].
  destruct (digit_is_no_sign c d Hd) as (Hminus & Hplus & _).
  unfold Atoi. rewrite Hminus, Hplus. cbn [orb].
  destruct Hscan as [(n & -> & Hle) | ->]; [|right; reflexivity].
  destruct (n <=? maxInt)%Z eqn:Hfit.
  - left. exists n. split; [|reflexivity]. apply Z.leb_le in Hfit. lia.
  - right. reflexivity.
Qed.
End Route_ids.

Section Handlers.
Import http.
Variable sort_Slice : sorter.
Variable Quote : string -> string.
Variable Decode : string -> db.Product * error.
Variable Encode_Product : db.Product -> string.
Variable Encode_Products : db.Products -> string.

Let not_found (id : Z) : string := "Product <" +:+ FormatInt id +:+ "> does not exist".

(** X16. For an id that [Atoi] reads, the handler of [GET /product/{id}]
    leaves the catalog as it is and answers 404 with the text "Product <id>
    does not exist" when no product has the id, and 200 with the encoding
    of the first product of that id otherwise. *)
Theorem GetProduct_handler_answers (Items : db.Products) (id_var : string) (id : Z) :
  strconv.Atoi Quote id_var = (id, None) ->
  (without_Id id Items ->
   main.GetProduct Quote Encode_Product Items id_var
   = (Items, mkResponse 404 (not_found id +:+ LF))) /\
  (forall pre q post,
     Items = pre ++ q :: post -> without_Id id pre -> db.Id q = id ->
     main.GetProduct Quote Encode_Product Items id_var
     = (Items, mkResponse 200 (Encode_Product q))).
Proof.
  intros Hid. unfold main.GetProduct. rewrite Hid. split.
  - intros Habs. rewrite GetProduct_absent by exact Habs. reflexivity.
  - intros pre q post -> Hpre <-.
    rewrite (GetProduct_first pre q post (without_Id_elem_of _ _ Hpre)); reflexivity.
Qed.

(** X17. For an id that [Atoi] reads and a body that decodes, the handler
    of [PUT /product/{id}] writes the product of the body under the id of
    the path, whatever id the body gives: it answers 500, not 404, with the
    text "Product <id> does not exist" and leaves the catalog as it is when
    no product has the id of the path, and otherwise replaces the first
    product of that id and answers 200 with the encoding of the product
    written. *)
Theorem UpdateProduct_handler_answers (Items : db.Products) (id_var body : string)
    (id : Z) (p : db.Product) :
  strconv.Atoi Quote id_var = (id, None) ->
  Decode body = (p, None) ->
  let written := db.mkProduct id (db.Name p) (db.Price p) in
  (without_Id id Items ->
   main.UpdateProduct Quote Decode Encode_Product Items id_var body
   = (Items, mkResponse 500 (not_found id +:+ LF))) /\
  (forall pre q post,
     Items = pre ++ q :: post -> without_Id id pre -> db.Id q = id ->
     main.UpdateProduct Quote Decode Encode_Product Items id_var body
     = (pre ++ written :: post, mkResponse 200 (Encode_Product written))).
Proof.
  intros Hid Hbody written. unfold main.UpdateProduct. rewrite Hid, Hbody.
  fold written. split.
  - intros Habs. rewrite UpdateProduct_absent by exact Habs. reflexivity.
  - intros pre q post -> Hpre <-.
    rewrite (UpdateProduct_first pre q post (without_Id_elem_of _ _ Hpre)); reflexivity.
Qed.

(** X18. For an id that [Atoi] reads, the handler of
    [DELETE /product/{id}] answers 500, not 404, with the text "Product <id>
    does not exist" and leaves the catalog as it is when no product has the
    id, and otherwise removes the first product of that id and answers 200
    with the object whose one key, "result", is "success". *)
Theorem DeleteProduct_handler_answers (Items : db.Products) (id_var : string) (id : Z) :
  strconv.Atoi Quote id_var = (id, None) ->
  (without_Id id Items ->
   main.DeleteProduct Quote Items id_var
   = (Items, mkResponse 500 (not_found id +:+ LF))) /\
  (forall pre q post,
     Items = pre ++ q :: post -> without_Id id pre -> db.Id q = id ->
     main.DeleteProduct Quote Items id_var
     = (pre ++ post, mkResponse 200 main.result_success)).
Proof.
  intros Hid. unfold main.DeleteProduct. rewrite Hid. split.
  - intros Habs. rewrite DeleteProduct_absent by exact Habs. reflexivity.
  - intros pre q post -> Hpre <-.
    rewrite (DeleteProduct_first pre q post (without_Id_elem_of _ _ Hpre)); reflexivity.
Qed.
End Handlers.

Section Handlers_together.
Import http.
Variable sort_Slice : sorter.
Variable Quote : string -> string.
Variable Decode : string -> db.Product * error.
Variable Encode_Product : db.Product -> string.
Variable Encode_Products : db.Products -> string.

(** X19. A request that is answered with an error status, 400 or above,
    leaves the catalog as it was, whichever of the five handlers served
    it; the handlers of [GET /] and of [POST /product] never answer 500. *)
Theorem failed_requests_leave_catalog (Items : db.Products) (id_var body : string) :
  let answers (r : db.Products * Response) : Prop :=
    (400 <= StatusCode (snd r))%Z -> fst r = Items in
  answers (main.GetAllProducts sort_Slice Encode_Products Items) /\
  answers (main.CreateProduct Decode Encode_Product Items body) /\
  answers (main.GetProduct Quote Encode_Product Items id_var) /\
  answers (main.UpdateProduct Quote Decode Encode_Product Items id_var body) /\
  answers (main.DeleteProduct Quote Items id_var) /\
  StatusCode (snd (main.GetAllProducts sort_Slice Encode_Products Items)) = 200%Z /\
  StatusCode (snd (main.CreateProduct Decode Encode_Product Items body)) <> 500%Z.
Proof.
  intros answers. subst answers. cbv beta.
  split; [|split; [|split; [|split; [|split; [|split]]]]].
  - unfold main.GetAllProducts. simpl. unfold StatusOK, StatusCreated. intros H. exfalso. lia.
  - unfold main.CreateProduct. destruct (Decode body) as [p [e|]]; simpl;
      [reflexivity | unfold StatusOK, StatusCreated; intros H; exfalso; lia].
  - unfold main.GetProduct.
    destruct (strconv.Atoi Quote id_var) as [id [e|]]; [reflexivity|].
    set (asked := db.mkProduct id EmptyString (S754_zero false)).
    destruct (by_first_with_Id id Items) as [Habs | (pre & q & post & -> & Hq & Hpre)].
    + rewrite (GetProduct_absent Items asked Habs). reflexivity.
    + pose proof (without_Id_elem_of _ _ Hpre) as Hpre'. rewrite <- Hq in Hpre'.
      rewrite (GetProduct_first pre q post Hpre' asked (eq_sym Hq)). reflexivity.
  - unfold main.UpdateProduct.
    destruct (strconv.Atoi Quote id_var) as [id [e|]]; [reflexivity|].
    destruct (Decode body) as [p [e|]]; [reflexivity|].
    set (written := db.mkProduct id (db.Name p) (db.Price p)).
    destruct (by_first_with_Id id Items) as [Habs | (pre & q & post & -> & Hq & Hpre)].
    + rewrite (UpdateProduct_absent Items written Habs). reflexivity.
    + pose proof (without_Id_elem_of _ _ Hpre) as Hpre'. rewrite <- Hq in Hpre'.
      rewrite (UpdateProduct_first pre q post Hpre' written (eq_sym Hq)). simpl.
      unfold StatusOK, StatusCreated. intros H. exfalso. lia.
  - unfold main.DeleteProduct.
    destruct (strconv.Atoi Quote id_var) as [id [e|]]; [reflexivity|].
    set (asked := db.mkProduct id EmptyString (S754_zero false)).
    destruct (by_first_with_Id id Items) as [Habs | (pre & q & post & -> & Hq & Hpre)].
    + rewrite (DeleteProduct_absent Items asked Habs). reflexivity.
    + pose proof (without_Id_elem_of _ _ Hpre) as Hpre'. rewrite <- Hq in Hpre'.
      rewrite (DeleteProduct_first pre q post Hpre' asked (eq_sym Hq)). simpl.
      unfold StatusOK, StatusCreated. intros H. exfalso. lia.
  - reflexivity.
  - unfold main.CreateProduct. destruct (Decode body) as [p [e|]]; simpl;
      unfold StatusBadRequest, StatusCreated; discriminate.
Qed.

(** X20. For an id the routes let through, one or more decimal digits, the
    handlers of [GET] and [DELETE /product/{id}] answer 400 only when the
    number does not fit an [int], with the out-of-range error of [Atoi] as
    the text. *)
Theorem route_id_bad_request (Items : db.Products) (id_var : string) :
  main.route_id id_var = true ->
  let out_of_range :=
    Error ("strconv.Atoi: parsing " +:+ Quote id_var +:+ ": value out of range") 400 in
  (StatusCode (snd (main.GetProduct Quote Encode_Product Items id_var)) = 400%Z ->
   snd (main.GetProduct Quote Encode_Product Items id_var) = out_of_range) /\
  (StatusCode (snd (main.DeleteProduct Quote Items id_var)) = 400%Z ->
   snd (main.DeleteProduct Quote Items id_var) = out_of_range).
Proof.
  intros Hroute out_of_range. subst out_of_range.
  unfold main.GetProduct, main.DeleteProduct.
  destruct (Atoi_route_id Quote id_var Hroute) as [(n & _ & ->) | ->].
  - split.
    + destruct (db.GetProduct Items _) as [Items' [p [e|]]]; simpl; discriminate.
    + destruct (db.DeleteProduct Items _) as [Items' [e|]]; simpl; discriminate.
  - split; reflexivity.
Qed.

(** X21. After [POST /product] with a body that decodes to a product whose
    id the catalog does not hold, which is answered 201 with the encoding
    of that product, [GET /product/{id}] with an id that reads as the id of
    the product is answered 200 with the same text. *)
Theorem CreateProduct_then_GetProduct (Items : db.Products) (body id_var : string)
    (p : db.Product) :
  Decode body = (p, None) ->
  without_Id (db.Id p) Items ->
  strconv.Atoi Quote id_var = (db.Id p, None) ->
  main.CreateProduct Decode Encode_Product Items body
  = (Items ++ [p], mkResponse 201 (Encode_Product p)) /\
  main.GetProduct Quote Encode_Product (Items ++ [p]) id_var
  = (Items ++ [p], mkResponse 200 (Encode_Product p)).
Proof.
  intros Hbody Habs Hid. split.
  - unfold main.CreateProduct. rewrite Hbody. reflexivity.
  - unfold main.GetProduct. rewrite Hid.
    rewrite (GetProduct_first Items p [] (without_Id_elem_of _ _ Habs)); reflexivity.
Qed.
End Handlers_together.

Section Handlers_witnesses.
Import http samples.

Lemma GetProduct_handler_answers_witness :
  strconv.Atoi stubs.Quote "007" = (7%Z, None) /\ without_Id 7 catalog /\
  main.GetProduct stubs.Quote stubs.Encode_Product catalog "007"
  = (catalog, mkResponse 404 ("Product <7> does not exist" +:+ LF)) /\
  main.GetProduct stubs.Quote stubs.Encode_Product duplicated "1"
  = (duplicated, mkResponse 200 ("Apple" +:+ LF)).
Proof.
  assert (Habs : without_Id 7 catalog) by (repeat constructor; discriminate).
  assert (Hpre : without_Id 1 [Orange]) by (repeat constructor; discriminate).
  split; [reflexivity|]. split; [exact Habs|]. split.
  - exact (proj1 (GetProduct_handler_answers stubs.Quote stubs.Encode_Product
                    catalog "007" 7 eq_refl) Habs).
  - exact (proj2 (GetProduct_handler_answers stubs.Quote stubs.Encode_Product
                    duplicated "1" 1 eq_refl)
             [Orange] Apple [Bananas; GreenApple] eq_refl Hpre eq_refl).
Defined.

Lemma UpdateProduct_handler_answers_witness :
  strconv.Atoi stubs.Quote "1" = (1%Z, None) /\
  stubs.Decode "Bananas!" = (Bananas', None) /\
  main.UpdateProduct stubs.Quote stubs.Decode stubs.Encode_Product [Orange] "1" "Bananas!"
  = ([Orange], mkResponse 500 ("Product <1> does not exist" +:+ LF)) /\
  main.UpdateProduct stubs.Quote stubs.Decode stubs.Encode_Product duplicated "1" "Bananas!"
  = ([Orange; dummydb.mkProduct 1 "Bananas!" f2_5; Bananas; GreenApple],
     mkResponse 200 ("Bananas!" +:+ LF)).
Proof.
  assert (Hpre : without_Id 1 [Orange]) by (repeat constructor; discriminate).
  split; [reflexivity|]. split; [reflexivity|]. split.
  - exact (proj1 (UpdateProduct_handler_answers stubs.Quote stubs.Decode
                    stubs.Encode_Product [Orange] "1" "Bananas!" 1 Bananas'
                    eq_refl eq_refl) Hpre).
  - exact (proj2 (UpdateProduct_handler_answers stubs.Quote stubs.Decode
                    stubs.Encode_Product duplicated "1" "Bananas!" 1 Bananas'
                    eq_refl eq_refl)
             [Orange] Apple [Bananas; GreenApple] eq_refl Hpre eq_refl).
Defined.

Lemma DeleteProduct_handler_answers_witness :
  strconv.Atoi stubs.Quote "1" = (1%Z, None) /\
  main.DeleteProduct stubs.Quote [Orange] "1"
  = ([Orange], mkResponse 500 ("Product <1> does not exist" +:+ LF)) /\
  main.DeleteProduct stubs.Quote duplicated "1"
  = ([Orange; Bananas; GreenApple], mkResponse 200 main.result_success).
Proof.
  assert (Hpre : without_Id 1 [Orange]) by (repeat constructor; discriminate).
  split; [reflexivity|]. split.
  - exact (proj1 (DeleteProduct_handler_answers stubs.Quote [Orange] "1" 1 eq_refl) Hpre).
  - exact (proj2 (DeleteProduct_handler_answers stubs.Quote duplicated "1" 1 eq_refl)
             [Orange] Apple [Bananas; GreenApple] eq_refl Hpre eq_refl).
Defined.

Lemma failed_requests_leave_catalog_witness :
  (400 <= StatusCode (snd (main.UpdateProduct stubs.Quote stubs.Decode stubs.Encode_Product
                             catalog "9" "Kiwi")))%Z /\
  fst (main.UpdateProduct stubs.Quote stubs.Decode stubs.Encode_Product catalog "9" "Kiwi")
  = catalog.
Proof.
  destruct (failed_requests_leave_catalog insertionSort stubs.Quote stubs.Decode
              stubs.Encode_Product stubs.Encode_Products catalog "9" "Kiwi")
    as (_ & _ & _ & Hupdate & _).
  assert (Hstatus : (400 <= StatusCode (snd (main.UpdateProduct stubs.Quote stubs.Decode
                                               stubs.Encode_Product catalog "9" "Kiwi")))%Z)
    by (vm_compute; discriminate).
  split; [exact Hstatus | exact (Hupdate Hstatus)].
Defined.

Lemma route_id_bad_request_witness :
  main.route_id "9223372036854775808" = true /\
  snd (main.GetProduct stubs.Quote stubs.Encode_Product catalog "9223372036854775808")
  = Error ("strconv.Atoi: parsing " +:+ stubs.Quote "9223372036854775808"
             +:+ ": value out of range") 400.
Proof.
  split; [reflexivity|].
  exact (proj1 (route_id_bad_request stubs.Quote stubs.Encode_Product catalog
                  "9223372036854775808" eq_refl) eq_refl).
Defined.

Lemma CreateProduct_then_GetProduct_witness :
  stubs.Decode "Kiwi" = (Kiwi, None) /\ without_Id (dummydb.Id Kiwi) catalog /\
  strconv.Atoi stubs.Quote "5" = (dummydb.Id Kiwi, None) /\
  main.CreateProduct stubs.Decode stubs.Encode_Product catalog "Kiwi"
  = (catalog ++ [Kiwi], mkResponse 201 ("Kiwi" +:+ LF)) /\
  main.GetProduct stubs.Quote stubs.Encode_Product (catalog ++ [Kiwi]) "5"
  = (catalog ++ [Kiwi], mkResponse 200 ("Kiwi" +:+ LF)).
Proof.
  assert (Habs : without_Id (dummydb.Id Kiwi) catalog) by (repeat constructor; discriminate).
  split; [reflexivity|]. split; [exact Habs|]. split; [reflexivity|].
  exact (CreateProduct_then_GetProduct stubs.Quote stubs.Decode stubs.Encode_Product
           catalog "Kiwi" "5" Kiwi eq_refl Habs eq_refl).
Defined.
End Handlers_witnesses.
